(** * moltworker: the gateway supervisor and its request handler

    A shallow embedding of the Worker entry point (the Hono application that
    keeps one Clawdbot gateway alive inside a Cloudflare Sandbox and proxies
    every request to it), with the properties of its supervision logic.

    The sandbox is an external service: every call the Worker makes to it
    ([listProcesses], [startProcess], [waitForPort], [kill], [getLogs],
    [wsConnect], [containerFetch]) and every [console.log] is an event of a
    small free monad with exceptions, answered by an arbitrary stateful
    handler.  A run yields the way the function ended (a value or a thrown
    JS value) and the trace of calls with the answers they received.  The
    properties hold for every handler, that is, whatever the sandbox
    answers; what is assumed is only that each awaited call settles and
    that writing to the console does not throw. *)

From Stdlib Require Import ZArith.
From stdpp Require Import base strings list gmap.

Local Open Scope Z_scope.
Local Open Scope string_scope.
Local Open Scope list_scope.

(** ** JavaScript values the code handles *)

(** What a [throw] carries: an [Error] object with its [message], or any
    other value (the SDK's promises may reject with either). *)
Inductive thrown : Type :=
| JsError (message : string)
| JsOther (repr : string).

(** The settlement of an awaited promise. *)
Inductive settled (A : Type) : Type :=
| Fulfilled (a : A)
| Rejected (e : thrown).
Arguments Fulfilled {A} a.
Arguments Rejected {A} e.

(** [if (s)] on a [string | undefined]: defined and not the empty string. *)
Definition truthy (v : option string) : bool :=
  match v with
  | Some s => negb (bool_decide (s = ""))
  | None => false
  end.

(** [s || d] on strings. *)
Definition or_default (s d : string) : string :=
  if bool_decide (s = "") then d else s.

(** [String.prototype.includes]. *)
Fixpoint includes (needle hay : string) : bool :=
  String.prefix needle hay ||
  match hay with
  | EmptyString => false
  | String _ hay' => includes needle hay'
  end.

(** [toLowerCase], on the ASCII letters (header values are byte strings; no
    byte outside A-Z lowers to an ASCII letter). *)
Definition lower_ascii (c : Ascii.ascii) : Ascii.ascii :=
  let n := Ascii.nat_of_ascii c in
  if (65 <=? n)%nat && (n <=? 90)%nat then Ascii.ascii_of_nat (n + 32) else c.

Fixpoint toLowerCase (s : string) : string :=
  match s with
  | EmptyString => EmptyString
  | String c s' => String (lower_ascii c) (toLowerCase s')
  end.

(** JSON bodies built by [c.json]. *)
#[warnings="-register-all"]
Inductive json : Type :=
| JString (s : string)
| JNumber (n : Z)
| JObject (fields : list (string * json)).

(** ** Constants and types of the Worker *)

Definition CLAWDBOT_PORT : Z := 18789.
Definition STARTUP_TIMEOUT_MS : Z := 180000.

(** [interface ClawdbotEnv]; the [Sandbox] binding is the handle on the
    world the events below talk to. *)
Record ClawdbotEnv : Type := {
  ANTHROPIC_API_KEY : option string;
  OPENAI_API_KEY : option string;
  CLAWDBOT_GATEWAY_TOKEN : option string;
  CLAWDBOT_DEV_MODE : option string;
  CLAWDBOT_BIND_MODE : option string;
  TELEGRAM_BOT_TOKEN : option string;
  TELEGRAM_DM_POLICY : option string;
  DISCORD_BOT_TOKEN : option string;
  DISCORD_DM_POLICY : option string;
  SLACK_BOT_TOKEN : option string;
  SLACK_APP_TOKEN : option string;
  DEBUG_ROUTES_ENABLED : option string
}.

(** The fields of the SDK's [Process] the Worker reads. *)
Record Process : Type := {
  id : string;
  command : string;
  status : string
}.

(** What [getLogs] resolves to. *)
Record Logs : Type := {
  stdout : string;
  stderr : string
}.

(** The parts of the incoming [Request] the handler looks at: [pathname] and
    [search] are those of [new URL(request.url)], [upgrade] is
    [request.headers.get('Upgrade')]. *)
Record Request : Type := {
  method : string;
  url : string;
  pathname : string;
  search : string;
  upgrade : option string
}.

Inductive Response : Type :=
| JsonResponse (body : json) (code : Z)      (* c.json(body, code) *)
| TextResponse (body : string) (code : Z)
| Upstream (code : Z) (payload : string).    (* what the gateway answered *)

(** Hono's context: [c.env] and [c.req.raw]. *)
Record Context : Type := {
  c_env : ClawdbotEnv;
  c_req : Request
}.

(** Arguments of a [console.log] / [console.error] call. *)
Inductive logarg : Type :=
| LStr (s : string)
| LNum (n : Z)
| LThrown (e : thrown)
| LKeys (o : gmap string string).

Inductive loglevel : Type := LevelLog | LevelError.

(** ** Events and programs *)

Inductive sandboxE : Type -> Type :=
| ListProcesses : sandboxE (settled (list Process))
| StartProcess (cmd : string) (env : option (gmap string string)) :
    sandboxE (settled Process)
| WaitForPort (p : Process) (port : Z) (mode : string) (timeout : Z) :
    sandboxE (settled unit)
| Kill (p : Process) : sandboxE (settled unit)
| GetLogs (p : Process) : sandboxE (settled Logs)
| WsConnect (req : Request) (port : Z) : sandboxE (settled Response)
| ContainerFetch (req : Request) (port : Z) : sandboxE (settled Response)
| Console (lvl : loglevel) (args : list logarg) : sandboxE unit.

(** An async function body: it returns, throws, or performs an event and
    goes on with the answer. *)
Inductive prog (A : Type) : Type :=
| Ret (a : A)
| Throw (e : thrown)
| Vis {X : Type} (ev : sandboxE X) (k : X -> prog A).
Arguments Ret {A} a.
Arguments Throw {A} e.
Arguments Vis {A X} ev k.

Fixpoint bind {A B : Type} (m : prog A) (f : A -> prog B) : prog B :=
  match m with
  | Ret a => f a
  | Throw e => Throw e
  | Vis ev k => Vis ev (fun x => bind (k x) f)
  end.

(** [try { m } catch (e) { h e }]. *)
Fixpoint try_catch {A : Type} (m : prog A) (h : thrown -> prog A) : prog A :=
  match m with
  | Ret a => Ret a
  | Throw e => h e
  | Vis ev k => Vis ev (fun x => try_catch (k x) h)
  end.

#[global] Instance prog_ret : MRet prog := fun A a => Ret a.
#[global] Instance prog_bind : MBind prog := fun A B f m => bind m f.

(** [await] of a sandbox call: a rejection is thrown. *)
Definition await {A : Type} (ev : sandboxE (settled A)) : prog A :=
  Vis ev (fun r => match r with Fulfilled a => Ret a | Rejected e => Throw e end).

Definition console_log (args : list logarg) : prog unit :=
  Vis (Console LevelLog args) Ret.
Definition console_error (args : list logarg) : prog unit :=
  Vis (Console LevelError args) Ret.

(** [if (b) stmt]. *)
Definition when (b : bool) (m : prog unit) : prog unit :=
  if b then m else Ret tt.

(** A block that may [return] from the enclosing function. *)
Inductive flow (A : Type) : Type :=
| Return (a : A)
| Fallthrough.
Arguments Return {A} a.
Arguments Fallthrough {A}.

(** ** Running a program against a sandbox *)

(** One call with the answer it got. *)
Inductive obs : Type :=
| OList (r : settled (list Process))
| OStart (cmd : string) (env : option (gmap string string)) (r : settled Process)
| OWait (p : Process) (port : Z) (mode : string) (timeout : Z) (r : settled unit)
| OKill (p : Process) (r : settled unit)
| OGetLogs (p : Process) (r : settled Logs)
| OWsConnect (req : Request) (port : Z) (r : settled Response)
| OFetch (req : Request) (port : Z) (r : settled Response)
| OConsole (lvl : loglevel) (args : list logarg).

Definition observe {X : Type} (ev : sandboxE X) : X -> obs :=
  match ev in sandboxE X return X -> obs with
  | ListProcesses => OList
  | StartProcess cmd env => OStart cmd env
  | WaitForPort p port mode timeout => OWait p port mode timeout
  | Kill p => OKill p
  | GetLogs p => OGetLogs p
  | WsConnect req port => OWsConnect req port
  | ContainerFetch req port => OFetch req port
  | Console lvl args => fun _ => OConsole lvl args
  end.

(** A sandbox (and console) with internal state [S]: it answers each event
    and moves on. *)
Definition handler (S : Type) : Type := forall X : Type, sandboxE X -> S -> X * S.

(** How an async function ends. *)
Inductive completion (A : Type) : Type :=
| Returns (a : A)
| Throws (e : thrown).
Arguments Returns {A} a.
Arguments Throws {A} e.

Fixpoint run {S A : Type} (h : handler S) (m : prog A) (s : S)
  : completion A * S * list obs :=
  match m with
  | Ret a => (Returns a, s, [])
  | Throw e => (Throws e, s, [])
  | Vis ev k =>
      let '(x, s1) := h _ ev s in
      let '(r, s2, t) := run h (k x) s1 in
      (r, s2, observe ev x :: t)
  end.

(** ** The Worker's helper functions *)

(** [if (v) o[k] = v;] *)
Definition set_if_truthy (k : string) (v : option string)
    (o : gmap string string) : gmap string string :=
  match v with
  | Some s => if truthy v then <[k := s]> o else o
  | None => o
  end.

Definition buildEnvVars (env : ClawdbotEnv) : gmap string string :=
  let envVars : gmap string string := ∅ in
  let envVars := set_if_truthy "ANTHROPIC_API_KEY" (ANTHROPIC_API_KEY env) envVars in
  let envVars := set_if_truthy "OPENAI_API_KEY" (OPENAI_API_KEY env) envVars in
  let envVars := set_if_truthy "CLAWDBOT_GATEWAY_TOKEN" (CLAWDBOT_GATEWAY_TOKEN env) envVars in
  let envVars := set_if_truthy "CLAWDBOT_DEV_MODE" (CLAWDBOT_DEV_MODE env) envVars in
  let envVars := set_if_truthy "CLAWDBOT_BIND_MODE" (CLAWDBOT_BIND_MODE env) envVars in
  let envVars := set_if_truthy "TELEGRAM_BOT_TOKEN" (TELEGRAM_BOT_TOKEN env) envVars in
  let envVars := set_if_truthy "TELEGRAM_DM_POLICY" (TELEGRAM_DM_POLICY env) envVars in
  let envVars := set_if_truthy "DISCORD_BOT_TOKEN" (DISCORD_BOT_TOKEN env) envVars in
  let envVars := set_if_truthy "DISCORD_DM_POLICY" (DISCORD_DM_POLICY env) envVars in
  let envVars := set_if_truthy "SLACK_BOT_TOKEN" (SLACK_BOT_TOKEN env) envVars in
  let envVars := set_if_truthy "SLACK_APP_TOKEN" (SLACK_APP_TOKEN env) envVars in
  envVars.

(** The test of the [for] loop's body. *)
Definition is_live_gateway (proc : Process) : bool :=
  (includes "start-clawdbot.sh" (command proc) ||
   includes "clawdbot gateway" (command proc)) &&
  (bool_decide (status proc = "starting") || bool_decide (status proc = "running")).

(** The [for] loop: the first process that passes the test. *)
Fixpoint first_live_gateway (processes : list Process) : option Process :=
  match processes with
  | [] => None
  | proc :: rest => if is_live_gateway proc then Some proc else first_live_gateway rest
  end.

Definition findExistingClawdbotProcess : prog (option Process) :=
  try_catch
    (processes ← await ListProcesses;
     mret (first_live_gateway processes))
    (fun e =>
       console_log [LStr "Could not list processes:"; LThrown e];;
       mret None).

(** The environment option of [startProcess]:
    [Object.keys(envVars).length > 0 ? envVars : undefined]. *)
Definition env_option (envVars : gmap string string) : option (gmap string string) :=
  if bool_decide (0 < size envVars)%nat then Some envVars else None.

Definition ensureClawdbotGateway (env : ClawdbotEnv) : prog Process :=
  existingProcess ← findExistingClawdbotProcess;
  early ←
    match existingProcess with
    | Some existingProcess =>
        console_log [LStr "Found existing Clawdbot process:"; LStr (id existingProcess);
                     LStr "status:"; LStr (status existingProcess)];;
        try_catch
          (console_log [LStr "Waiting for Clawdbot gateway on port"; LNum CLAWDBOT_PORT;
                        LStr "timeout:"; LNum STARTUP_TIMEOUT_MS];;
           await (WaitForPort existingProcess CLAWDBOT_PORT "tcp" STARTUP_TIMEOUT_MS);;
           console_log [LStr "Clawdbot gateway is reachable"];;
           mret (Return existingProcess))
          (fun e =>
             console_log [LStr "Existing process not reachable after full timeout, killing and restarting..."];;
             try_catch
               (await (Kill existingProcess))
               (fun killError =>
                  console_log [LStr "Failed to kill process:"; LThrown killError]);;
             mret Fallthrough)
    | None => mret Fallthrough
    end;
  match early with
  | Return p => mret p
  | Fallthrough =>
      console_log [LStr "Starting new Clawdbot gateway..."];;
      let envVars := buildEnvVars env in
      let command := "/usr/local/bin/start-clawdbot.sh" in
      console_log [LStr "Starting process with command:"; LStr command];;
      console_log [LStr "Environment vars being passed:"; LKeys envVars];;
      process ←
        try_catch
          (process ← await (StartProcess command (env_option envVars));
           console_log [LStr "Process started with id:"; LStr (id process);
                        LStr "status:"; LStr (status process)];;
           mret process)
          (fun startErr =>
             console_error [LStr "Failed to start process:"; LThrown startErr];;
             Throw startErr);
      try_catch
        (console_log [LStr "Waiting for Clawdbot gateway to be ready on port"; LNum CLAWDBOT_PORT];;
         await (WaitForPort process CLAWDBOT_PORT "tcp" STARTUP_TIMEOUT_MS);;
         console_log [LStr "Clawdbot gateway is ready!"];;
         logs ← await (GetLogs process);
         when (truthy (Some (stdout logs)))
              (console_log [LStr "Clawdbot stdout:"; LStr (stdout logs)]);;
         when (truthy (Some (stderr logs)))
              (console_log [LStr "Clawdbot stderr:"; LStr (stderr logs)]))
        (fun e =>
           console_error [LStr "waitForPort failed:"; LThrown e];;
           try_catch
             (logs ← await (GetLogs process);
              console_error [LStr "Clawdbot startup failed. Stderr:"; LStr (stderr logs)];;
              console_error [LStr "Clawdbot startup failed. Stdout:"; LStr (stdout logs)];;
              Throw (JsError ("Clawdbot gateway failed to start. Stderr: "
                              +:+ or_default (stderr logs) "(empty)")))
             (fun logErr =>
                console_error [LStr "Failed to get logs:"; LThrown logErr];;
                Throw e));;
      mret process
  end.

(** ** The Hono application *)

(** [c.env.DEBUG_ROUTES_ENABLED !== 'false'] *)
Definition debugEnabled (env : ClawdbotEnv) : bool :=
  negb (bool_decide (DEBUG_ROUTES_ENABLED env = Some "false")).

(** The middleware mounted on ['/debug/*']. *)
Definition debug_gate (c : Context) (next : prog Response) : prog Response :=
  if negb (debugEnabled (c_env c))
  then mret (JsonResponse (JObject [("error", JString "Debug routes are disabled")]) 404)
  else next.

(** The handler of ['/sandbox-health']. *)
Definition sandbox_health (c : Context) : prog Response :=
  mret (JsonResponse (JObject [("status", JString "ok");
                               ("service", JString "clawdbot-sandbox");
                               ("gateway_port", JNumber CLAWDBOT_PORT)]) 200).

(** [error instanceof Error ? error.message : 'Unknown error'] *)
Definition errorMessage_of (error : thrown) : string :=
  match error with
  | JsError message => message
  | JsOther _ => "Unknown error"
  end.

(** The [hint] the catch block of the proxy handler settles on. *)
Definition hint_of (env : ClawdbotEnv) (errorMessage : string) : string :=
  let hint := "Check worker logs with: wrangler tail" in
  if negb (truthy (ANTHROPIC_API_KEY env))
  then "ANTHROPIC_API_KEY is not set. Run: wrangler secret put ANTHROPIC_API_KEY"
  else if includes "heap out of memory" errorMessage || includes "OOM" errorMessage
  then "Gateway ran out of memory. Try again or check for memory leaks."
  else hint.

(** [app.all('*', ...)]: make sure the gateway runs, then proxy. *)
Definition proxy_all (c : Context) : prog Response :=
  let request := c_req c in
  early ←
    try_catch
      (ensureClawdbotGateway (c_env c);;
       mret Fallthrough)
      (fun error =>
         console_error [LStr "Failed to start Clawdbot:"; LThrown error];;
         let errorMessage := errorMessage_of error in
         let hint := hint_of (c_env c) errorMessage in
         mret (Return (JsonResponse
                         (JObject [("error", JString "Clawdbot gateway failed to start");
                                   ("details", JString errorMessage);
                                   ("hint", JString hint)]) 503)));
  match early with
  | Return response => mret response
  | Fallthrough =>
      if bool_decide (toLowerCase <$> upgrade request = Some "websocket")
      then
        console_log [LStr "Proxying WebSocket connection to Clawdbot"];;
        console_log [LStr "WebSocket URL:"; LStr (url request)];;
        console_log [LStr "WebSocket search params:"; LStr (search request)];;
        await (WsConnect request CLAWDBOT_PORT)
      else
        console_log [LStr "Proxying HTTP request:"; LStr (pathname request +:+ search request)];;
        await (ContainerFetch request CLAWDBOT_PORT)
  end.

(** Hono's routing, as far as the application uses it: a route is
    registered for a method (or all of them) and a path pattern, and a
    request runs the matching routes in registration order, each receiving
    the rest of the chain as [next]. *)
Inductive pattern : Type :=
| PAny                        (* '*' *)
| PExact (path : string)      (* '/sandbox-health' *)
| PUnder (base : string).     (* '/debug/*': the base itself and all below *)

Definition path_matches (pat : pattern) (path : string) : bool :=
  match pat with
  | PAny => true
  | PExact p => bool_decide (path = p)
  | PUnder base => bool_decide (path = base) || String.prefix (base +:+ "/") path
  end.

Record route : Type := {
  r_method : option string;
  r_pattern : pattern;
  r_handler : Context -> prog Response -> prog Response
}.

Definition route_matches (r : route) (req : Request) : bool :=
  match r_method r with
  | Some m => bool_decide (method req = m)
  | None => true
  end && path_matches (r_pattern r) (pathname req).

Definition not_found : prog Response :=
  mret (TextResponse "404 Not Found" 404).

Fixpoint dispatch (routes : list route) (c : Context) : prog Response :=
  match routes with
  | [] => not_found
  | r :: rest =>
      if route_matches r (c_req c)
      then r_handler r c (dispatch rest c)
      else dispatch rest c
  end.

Section App.
(** The three handlers of the [debug] sub-router (version, processes,
    logs); the properties below hold whatever they do. *)
Variables debug_version debug_processes debug_logs : Context -> prog Response.

Definition app_use (pat : pattern) (mw : Context -> prog Response -> prog Response) : route :=
  {| r_method := None; r_pattern := pat; r_handler := mw |}.
Definition app_get (path : string) (hd : Context -> prog Response) : route :=
  {| r_method := Some "GET"; r_pattern := PExact path; r_handler := fun c _ => hd c |}.
Definition app_all (pat : pattern) (hd : Context -> prog Response) : route :=
  {| r_method := None; r_pattern := pat; r_handler := fun c _ => hd c |}.

(** The routes in the order the module registers them. *)
Definition app : list route :=
  [ app_use PAny (fun c next => next);   (* binds the sandbox handle *)
    app_get "/sandbox-health" sandbox_health;
    app_use (PUnder "/debug") debug_gate;
    app_get "/debug/version" debug_version;
    app_get "/debug/processes" debug_processes;
    app_get "/debug/logs" debug_logs;
    app_all PAny proxy_all ].

Definition app_fetch (c : Context) : prog Response := dispatch app c.
End App.

(** ** Scripted sandboxes, for running the code on concrete inputs *)

(** A sandbox that answers from a fixed script; its state counts the
    [getLogs] calls so that successive calls may answer differently. *)
Record script : Type := {
  sc_list : settled (list Process);
  sc_start : settled Process;
  sc_wait : Process -> settled unit;
  sc_kill : settled unit;
  sc_logs : nat -> settled Logs;
  sc_upstream : settled Response
}.

Definition scripted (sc : script) : handler nat :=
  fun X ev =>
    match ev in sandboxE X return nat -> X * nat with
    | ListProcesses => fun n => (sc_list sc, n)
    | StartProcess _ _ => fun n => (sc_start sc, n)
    | WaitForPort p _ _ _ => fun n => (sc_wait sc p, n)
    | Kill _ => fun n => (sc_kill sc, n)
    | GetLogs _ => fun n => (sc_logs sc n, S n)
    | WsConnect _ _ => fun n => (sc_upstream sc, n)
    | ContainerFetch _ _ => fun n => (sc_upstream sc, n)
    | Console _ _ => fun n => (tt, n)
    end.

(** How a run ended, and what it did on the way. *)
Definition result_of {S A : Type} (r : completion A * S * list obs) : completion A := r.1.1.
Definition trace_of {S A : Type} (r : completion A * S * list obs) : list obs := r.2.

(** The sandbox calls of a trace, console output left out. *)
Definition is_call (o : obs) : bool :=
  match o with
  | OConsole _ _ => false
  | _ => true
  end.
Definition calls (t : list obs) : list obs := List.filter is_call t.

(** An environment with nothing set. *)
Definition no_env : ClawdbotEnv :=
  {| ANTHROPIC_API_KEY := None; OPENAI_API_KEY := None; CLAWDBOT_GATEWAY_TOKEN := None;
     CLAWDBOT_DEV_MODE := None; CLAWDBOT_BIND_MODE := None; TELEGRAM_BOT_TOKEN := None;
     TELEGRAM_DM_POLICY := None; DISCORD_BOT_TOKEN := None; DISCORD_DM_POLICY := None;
     SLACK_BOT_TOKEN := None; SLACK_APP_TOKEN := None; DEBUG_ROUTES_ENABLED := None |}.

Definition gw_old : Process :=
  {| id := "proc-1"; command := "/usr/local/bin/start-clawdbot.sh"; status := "running" |}.
Definition gw_new : Process :=
  {| id := "proc-2"; command := "/usr/local/bin/start-clawdbot.sh"; status := "starting" |}.

(** No gateway yet; the fresh one never opens its port, and its output
    (with a non-empty stderr) can be fetched. *)
Definition sc_fresh_timeout : script :=
  {| sc_list := Fulfilled [];
     sc_start := Fulfilled gw_new;
     sc_wait := fun _ => Rejected (JsError "timeout");
     sc_kill := Fulfilled tt;
     sc_logs := fun _ => Fulfilled {| stdout := ""; stderr := "boom" |};
     sc_upstream := Fulfilled (Upstream 200 "ok") |}.

(** ** Reading runs and traces *)

(** [env[k]] for the variables [buildEnvVars] passes on. *)
Definition gateway_var (env : ClawdbotEnv) (k : string) : option string :=
  if bool_decide (k = "ANTHROPIC_API_KEY") then ANTHROPIC_API_KEY env
  else if bool_decide (k = "OPENAI_API_KEY") then OPENAI_API_KEY env
  else if bool_decide (k = "CLAWDBOT_GATEWAY_TOKEN") then CLAWDBOT_GATEWAY_TOKEN env
  else if bool_decide (k = "CLAWDBOT_DEV_MODE") then CLAWDBOT_DEV_MODE env
  else if bool_decide (k = "CLAWDBOT_BIND_MODE") then CLAWDBOT_BIND_MODE env
  else if bool_decide (k = "TELEGRAM_BOT_TOKEN") then TELEGRAM_BOT_TOKEN env
  else if bool_decide (k = "TELEGRAM_DM_POLICY") then TELEGRAM_DM_POLICY env
  else if bool_decide (k = "DISCORD_BOT_TOKEN") then DISCORD_BOT_TOKEN env
  else if bool_decide (k = "DISCORD_DM_POLICY") then DISCORD_DM_POLICY env
  else if bool_decide (k = "SLACK_BOT_TOKEN") then SLACK_BOT_TOKEN env
  else if bool_decide (k = "SLACK_APP_TOKEN") then SLACK_APP_TOKEN env
  else None.

(** Kinds of observations. *)
Definition is_forward (o : obs) : bool :=
  match o with
  | OWsConnect _ _ _ | OFetch _ _ _ => true
  | _ => false
  end.

Definition is_start (o : obs) : bool :=
  match o with
  | OStart _ _ _ => true
  | _ => false
  end.

Definition is_kill (o : obs) : bool :=
  match o with
  | OKill _ _ => true
  | _ => false
  end.

(** The sandbox [h], except that a failing registry query answers with an
    empty list instead (the console line the failure would have caused is
    still accounted for in the state). *)
Definition with_empty_registry {S : Type} (h : handler S) : handler S :=
  fun X ev =>
    match ev in sandboxE X return S -> X * S with
    | ListProcesses => fun s =>
        match h _ ListProcesses s with
        | (Rejected e, s1) =>
            (Fulfilled [],
             (h _ (Console LevelLog [LStr "Could not list processes:"; LThrown e]) s1).2)
        | answer => answer
        end
    | ev' => h _ ev'
    end.

(** The sandbox [h], except that a failing [kill] succeeds instead. *)
Definition with_kill_succeeding {S : Type} (h : handler S) : handler S :=
  fun X ev =>
    match ev in sandboxE X return S -> X * S with
    | Kill p => fun s =>
        match h _ (Kill p) s with
        | (Rejected killError, s1) =>
            (Fulfilled tt,
             (h _ (Console LevelLog [LStr "Failed to kill process:"; LThrown killError]) s1).2)
        | answer => answer
        end
    | ev' => h _ ev'
    end.

(** The body and status the proxy handler answers a failed supervision
    with. *)
Definition failure_response (env : ClawdbotEnv) (error : thrown) : Response :=
  JsonResponse
    (JObject [("error", JString "Clawdbot gateway failed to start");
              ("details", JString (errorMessage_of error));
              ("hint", JString (hint_of env (errorMessage_of error)))])
    503.

(** What the debug gate answers when it is off. *)
Definition debug_disabled_response : Response :=
  JsonResponse (JObject [("error", JString "Debug routes are disabled")]) 404.

(** ** Concrete environments, requests and sandboxes *)

(** The credential set, one variable set to the empty string. *)
Definition with_key : ClawdbotEnv :=
  {| ANTHROPIC_API_KEY := Some "sk-ant-test"; OPENAI_API_KEY := Some "";
     CLAWDBOT_GATEWAY_TOKEN := None; CLAWDBOT_DEV_MODE := None;
     CLAWDBOT_BIND_MODE := None; TELEGRAM_BOT_TOKEN := None;
     TELEGRAM_DM_POLICY := None; DISCORD_BOT_TOKEN := None;
     DISCORD_DM_POLICY := None; SLACK_BOT_TOKEN := None; SLACK_APP_TOKEN := None;
     DEBUG_ROUTES_ENABLED := None |}.

(** The credential set and [DEBUG_ROUTES_ENABLED] as given. *)
Definition with_debug (v : option string) : ClawdbotEnv :=
  {| ANTHROPIC_API_KEY := Some "sk-ant-test"; OPENAI_API_KEY := None;
     CLAWDBOT_GATEWAY_TOKEN := None; CLAWDBOT_DEV_MODE := None;
     CLAWDBOT_BIND_MODE := None; TELEGRAM_BOT_TOKEN := None;
     TELEGRAM_DM_POLICY := None; DISCORD_BOT_TOKEN := None;
     DISCORD_DM_POLICY := None; SLACK_BOT_TOKEN := None; SLACK_APP_TOKEN := None;
     DEBUG_ROUTES_ENABLED := v |}.

Definition get_request (path : string) : Request :=
  {| method := "GET"; url := "https://worker.example" +:+ path; pathname := path;
     search := ""; upgrade := None |}.

Definition timeout_error : thrown := JsError "waitForPort timed out after 180000ms".

(** The registry shows a running gateway whose port never opens; the
    replacement comes up. *)
Definition sc_stuck (kill_answer : settled unit) : script :=
  {| sc_list := Fulfilled [gw_old];
     sc_start := Fulfilled gw_new;
     sc_wait := fun p => if bool_decide (id p = "proc-1")
                         then Rejected timeout_error else Fulfilled tt;
     sc_kill := kill_answer;
     sc_logs := fun _ => Fulfilled {| stdout := "listening"; stderr := "" |};
     sc_upstream := Fulfilled (Upstream 200 "ok") |}.

(** The registry shows a running gateway that answers the probe. *)
Definition sc_healthy : script :=
  {| sc_list := Fulfilled [gw_old];
     sc_start := Fulfilled gw_new;
     sc_wait := fun _ => Fulfilled tt;
     sc_kill := Fulfilled tt;
     sc_logs := fun _ => Fulfilled {| stdout := ""; stderr := "" |};
     sc_upstream := Fulfilled (Upstream 200 "ok") |}.

(** The registry cannot be queried; a fresh gateway comes up. *)
Definition sc_registry_down : script :=
  {| sc_list := Rejected (JsError "sandbox unreachable");
     sc_start := Fulfilled gw_new;
     sc_wait := fun _ => Fulfilled tt;
     sc_kill := Fulfilled tt;
     sc_logs := fun _ => Fulfilled {| stdout := ""; stderr := "" |};
     sc_upstream := Fulfilled (Upstream 200 "ok") |}.

(** No gateway yet, and [startProcess] fails for lack of memory. *)
Definition sc_oom : script :=
  {| sc_list := Fulfilled [];
     sc_start := Rejected (JsError "FATAL ERROR: JavaScript heap out of memory");
     sc_wait := fun _ => Fulfilled tt;
     sc_kill := Fulfilled tt;
     sc_logs := fun _ => Fulfilled {| stdout := ""; stderr := "" |};
     sc_upstream := Fulfilled (Upstream 200 "ok") |}.

Definition stuck_run := run (scripted (sc_stuck (Fulfilled tt))) (ensureClawdbotGateway no_env) 0%nat.
Definition stuck_kill_fails_run :=
  run (scripted (sc_stuck (Rejected (JsError "no such process"))))
      (ensureClawdbotGateway no_env) 0%nat.
Definition healthy_run := run (scripted sc_healthy) (ensureClawdbotGateway no_env) 0%nat.
Definition healthy_proxy_run :=
  run (scripted sc_healthy)
      (proxy_all {| c_env := with_key; c_req := get_request "/chat" |}) 0%nat.

Definition keyed_ctx : Context := {| c_env := with_key; c_req := get_request "/chat" |}.
Definition unkeyed_ctx : Context := {| c_env := no_env; c_req := get_request "/chat" |}.

(** Stand-ins for the three debug handlers. *)
Definition debug_stub (name : string) (c : Context) : prog Response :=
  Ret (JsonResponse (JObject [("route", JString name)]) 200).

(** ** The call protocol of the supervisor *)

(** The sandbox calls of the part of [ensureClawdbotGateway] that starts a
    fresh gateway, with the way the function then ends. *)
Inductive fresh_calls (env : ClawdbotEnv) : completion Process -> list obs -> Prop :=
| fresh_launch_fails e :
    fresh_calls env (Throws e)
      [OStart "/usr/local/bin/start-clawdbot.sh" (env_option (buildEnvVars env)) (Rejected e)]
| fresh_ready p logs :
    fresh_calls env (Returns p)
      [OStart "/usr/local/bin/start-clawdbot.sh" (env_option (buildEnvVars env)) (Fulfilled p);
       OWait p CLAWDBOT_PORT "tcp" STARTUP_TIMEOUT_MS (Fulfilled tt);
       OGetLogs p (Fulfilled logs)]
| fresh_ready_logs_fail p e again :
    fresh_calls env (Throws e)
      [OStart "/usr/local/bin/start-clawdbot.sh" (env_option (buildEnvVars env)) (Fulfilled p);
       OWait p CLAWDBOT_PORT "tcp" STARTUP_TIMEOUT_MS (Fulfilled tt);
       OGetLogs p (Rejected e);
       OGetLogs p again]
| fresh_not_ready p e logs :
    fresh_calls env (Throws e)
      [OStart "/usr/local/bin/start-clawdbot.sh" (env_option (buildEnvVars env)) (Fulfilled p);
       OWait p CLAWDBOT_PORT "tcp" STARTUP_TIMEOUT_MS (Rejected e);
       OGetLogs p logs].

(** The sandbox calls of a whole run of [ensureClawdbotGateway]. *)
Inductive ensure_calls (env : ClawdbotEnv) : completion Process -> list obs -> Prop :=
| ensure_reuse ps p0 :
    first_live_gateway ps = Some p0 ->
    ensure_calls env (Returns p0)
      [OList (Fulfilled ps);
       OWait p0 CLAWDBOT_PORT "tcp" STARTUP_TIMEOUT_MS (Fulfilled tt)]
| ensure_restart ps p0 e killed r tl :
    first_live_gateway ps = Some p0 ->
    fresh_calls env r tl ->
    ensure_calls env r
      (OList (Fulfilled ps)
       :: OWait p0 CLAWDBOT_PORT "tcp" STARTUP_TIMEOUT_MS (Rejected e)
       :: OKill p0 killed
       :: tl)
| ensure_fresh ps r tl :
    first_live_gateway ps = None ->
    fresh_calls env r tl ->
    ensure_calls env r (OList (Fulfilled ps) :: tl)
| ensure_registry_down e r tl :
    fresh_calls env r tl ->
    ensure_calls env r (OList (Rejected e) :: tl).

Definition is_wait (o : obs) : bool :=
  match o with
  | OWait _ _ _ _ _ => true
  | _ => false
  end.

Definition is_getLogs (o : obs) : bool :=
  match o with
  | OGetLogs _ _ => true
  | _ => false
  end.

Definition is_list (o : obs) : bool :=
  match o with
  | OList _ => true
  | _ => false
  end.

(** The call by which the proxy handler reaches the gateway. *)
Definition forward_obs (req : Request) (answer : settled Response) : obs :=
  if bool_decide (toLowerCase <$> upgrade req = Some "websocket")
  then OWsConnect req CLAWDBOT_PORT answer
  else OFetch req CLAWDBOT_PORT answer.

(** How an awaited call that is returned directly ends the function. *)
Definition completion_of {A : Type} (answer : settled A) : completion A :=
  match answer with
  | Fulfilled a => Returns a
  | Rejected e => Throws e
  end.

(** ** The [/debug/logs] handler *)

Section DebugLogs.
(** Hono's [c.req.query(name)]. *)
Variable query : Request -> string -> option string.

(** [processes.find(p => p.id === processId)] *)
Fixpoint find_by_id (processId : string) (processes : list Process) : option Process :=
  match processes with
  | [] => None
  | p :: rest => if bool_decide (id p = processId) then Some p else find_by_id processId rest
  end.

Definition debug_logs (c : Context) : prog Response :=
  try_catch
    (let processId := query (c_req c) "id" in
     found ←
       (if truthy processId
        then
          processes ← await ListProcesses;
          match find_by_id (default "" processId) processes with
          | Some process => mret (inr process)
          | None =>
              mret (inl (JsonResponse
                           (JObject [("status", JString "not_found");
                                     ("message", JString ("Process " +:+ default "" processId
                                                          +:+ " not found"));
                                     ("stdout", JString "");
                                     ("stderr", JString "")])
                           404))
          end
        else
          process ← findExistingClawdbotProcess;
          match process with
          | Some process => mret (inr process)
          | None =>
              mret (inl (JsonResponse
                           (JObject [("status", JString "no_process");
                                     ("message", JString "No Clawdbot process is currently running");
                                     ("stdout", JString "");
                                     ("stderr", JString "")])
                           200))
          end);
     match found with
     | inl response => mret response
     | inr process =>
         logs ← await (GetLogs process);
         mret (JsonResponse
                 (JObject [("status", JString "ok");
                           ("process_id", JString (id process));
                           ("process_status", JString (status process));
                           ("stdout", JString (or_default (stdout logs) ""));
                           ("stderr", JString (or_default (stderr logs) ""))])
                 200)
     end)
    (fun error =>
       let errorMessage := errorMessage_of error in
       mret (JsonResponse
               (JObject [("status", JString "error");
                         ("message", JString ("Failed to get logs: " +:+ errorMessage));
                         ("stdout", JString "");
                         ("stderr", JString "")])
               500)).
End DebugLogs.

(** ** String helpers of the diagnostic scripts and of the config patch *)

Definition backslash : Ascii.ascii := Ascii.ascii_of_nat 92.

(** [s.replace(/\\c/g, repl)]: every backslash followed by [c], scanning
    from the left, is replaced by [repl]. *)
Fixpoint replace_escape (c : Ascii.ascii) (repl : string) (s : string) : string :=
  match s with
  | EmptyString => EmptyString
  | String a s' =>
      match s' with
      | EmptyString => String a EmptyString
      | String b s'' =>
          if Ascii.eqb a backslash && Ascii.eqb b c
          then repl +:+ replace_escape c repl s''
          else String a (replace_escape c repl s')
      end
  end.

(** [function unescape(str)] of the log-dump script. *)
Definition unescape (str : string) : string :=
  replace_escape backslash (String backslash EmptyString)
    (replace_escape (Ascii.ascii_of_nat 34) (String (Ascii.ascii_of_nat 34) EmptyString)
       (replace_escape (Ascii.ascii_of_nat 114) EmptyString
          (replace_escape (Ascii.ascii_of_nat 110) (String (Ascii.ascii_of_nat 10) EmptyString)
             str))).

(** [s.indexOf(c)] for a one-character needle. *)
Fixpoint indexOf (c : Ascii.ascii) (s : string) : Z :=
  match s with
  | EmptyString => -1
  | String a s' =>
      if Ascii.eqb a c then 0
      else let i := indexOf c s' in if (i <? 0)%Z then -1 else i + 1
  end.

(** [s.substring(start, end)]: both indices are clamped to the string and
    swapped when out of order; [end] defaults to the length. *)
Definition js_substring (start : Z) (stop : option Z) (s : string) : string :=
  let len := Z.of_nat (String.length s) in
  let a := Z.max 0 (Z.min start len) in
  let b := Z.max 0 (Z.min (default len stop) len) in
  String.substring (Z.to_nat (Z.min a b)) (Z.to_nat (Z.max a b - Z.min a b)) s.

(** The split of [CF_AI_GATEWAY_MODEL] into provider and model id. *)
Definition gateway_model_split (raw : string) : string * string :=
  let slashIdx := indexOf (Ascii.ascii_of_nat 47) raw in
  let gwProvider := js_substring 0 (Some slashIdx) raw in
  let modelId := js_substring (slashIdx + 1) None raw in
  (gwProvider, modelId).

(** [s.substring(s.length - n)], the tail the dump scripts print. *)
Definition tail_of (n : Z) (s : string) : string :=
  js_substring (Z.of_nat (String.length s) - n) None s.


(** The four-field body of the answers of [/debug/logs] that carry no
    output. *)
Definition logs_response (status_ message out err : string) (code : Z) : Response :=
  JsonResponse
    (JObject [("status", JString status_);
              ("message", JString message);
              ("stdout", JString out);
              ("stderr", JString err)])
    code.

(** The characters of a string. *)
Definition chars (s : string) : list Ascii.ascii := String.list_ascii_of_string s.

(** ** Further concrete sandboxes and requests *)

(** A [c.req.query] that knows the parameter [id] only. *)
Definition query_id (v : option string) : Request -> string -> option string :=
  fun _ name => if bool_decide (name = "id") then v else None.

(** No gateway yet; the fresh one answers the probe, but its output cannot
    be fetched the first time. *)
Definition sc_logs_fail_once : script :=
  {| sc_list := Fulfilled [];
     sc_start := Fulfilled gw_new;
     sc_wait := fun _ => Fulfilled tt;
     sc_kill := Fulfilled tt;
     sc_logs := fun n => match n with
                         | O => Rejected (JsError "log stream closed")
                         | _ => Fulfilled {| stdout := "listening"; stderr := "" |}
                         end;
     sc_upstream := Fulfilled (Upstream 200 "ok") |}.

(** A running gateway whose output cannot be fetched. *)
Definition sc_logs_down : script :=
  {| sc_list := Fulfilled [gw_old];
     sc_start := Fulfilled gw_new;
     sc_wait := fun _ => Fulfilled tt;
     sc_kill := Fulfilled tt;
     sc_logs := fun _ => Rejected (JsOther "stream reset");
     sc_upstream := Fulfilled (Upstream 200 "ok") |}.

Definition logs_fail_once_run :=
  run (scripted sc_logs_fail_once) (ensureClawdbotGateway no_env) 0%nat.
Definition fresh_timeout_run :=
  run (scripted sc_fresh_timeout) (ensureClawdbotGateway no_env) 0%nat.
Definition launch_fails_run :=
  run (scripted sc_oom) (ensureClawdbotGateway no_env) 0%nat.

Definition request_to (verb path : string) : Request :=
  {| method := verb; url := "https://worker.example" +:+ path; pathname := path;
     search := ""; upgrade := None |}.

(** * Properties *)

(** ** Running composite programs *)

Lemma run_bind {S A B} (h : handler S) (m : prog A) (f : A -> prog B) s :
  run h (bind m f) s =
  match run h m s with
  | (Returns a, s1, t) => let '(r, s2, t2) := run h (f a) s1 in (r, s2, t ++ t2)
  | (Throws e, s1, t) => (Throws e, s1, t)
  end.
Proof.
  revert s. induction m as [a|e|X ev k IH]; intros s; simpl.
  - by destruct (run h (f a) s) as [[r s2] t2].
  - done.
  - destruct (h X ev s) as [x s1]. rewrite IH.
    destruct (run h (k x) s1) as [[[a|e] s2] t]; [|done].
    by destruct (run h (f a) s2) as [[r s3] t3].
Qed.

Lemma run_try_catch {S A} (h : handler S) (m : prog A) (c : thrown -> prog A) s :
  run h (try_catch m c) s =
  match run h m s with
  | (Returns a, s1, t) => (Returns a, s1, t)
  | (Throws e, s1, t) => let '(r, s2, t2) := run h (c e) s1 in (r, s2, t ++ t2)
  end.
Proof.
  revert s. induction m as [a|e|X ev k IH]; intros s; simpl.
  - done.
  - by destruct (run h (c e) s) as [[r s2] t2].
  - destruct (h X ev s) as [x s1]. rewrite IH.
    destruct (run h (k x) s1) as [[[a|e] s2] t]; [done|].
    by destruct (run h (c e) s2) as [[r s3] t3].
Qed.

(** ** Symbolic execution of a run *)

Tactic Notation "prog_simpl" "in" hyp(H) :=
  cbn [run bind try_catch mbind mret prog_bind prog_ret await console_log
       console_error when observe] in H.

Ltac prog_simpl_goal :=
  cbn [run bind try_catch mbind mret prog_bind prog_ret await console_log
       console_error when observe].

(** One step of the run in [H]: name the sandbox's answer to the next call,
    or decide the next test of the program. *)
Ltac step_run h H :=
  first
    [ match type of H with
      | context [h ?X ?ev ?s] =>
          let x := fresh "x" in
          let s1 := fresh "s" in
          destruct (h X ev s) as [x s1]; try destruct x;
          repeat match goal with u : unit |- _ => destruct u end
      end
    | match type of H with
      | context [match first_live_gateway ?a with _ => _ end] =>
          destruct (first_live_gateway a) eqn:?
      end
    | match type of H with
      | context [truthy ?v] => destruct (truthy v)
      end ];
  prog_simpl in H.

(** The console messages play no part in the control flow; naming them keeps
    the terms of a symbolic run small. *)
Ltac hide_messages :=
  repeat match goal with
    | H : context [LStr (String ?a ?s)] |- _ =>
        let m := fresh "msg" in set (m := String a s) in *; clearbody m
    | |- context [LStr (String ?a ?s)] =>
        let m := fresh "msg" in set (m := String a s) in *; clearbody m
    end.

Ltac run_ensure h H :=
  unfold ensureClawdbotGateway, findExistingClawdbotProcess in H;
  hide_messages;
  prog_simpl in H;
  repeat step_run h H.

Ltac elem_of_trace :=
  repeat first [apply list_elem_of_here | apply list_elem_of_further].

(** Every position at which a trace known event by event can be cut. *)
Ltac split_trace t1 :=
  repeat (destruct t1 as [|? t1]; cbn [List.app] in *; simplify_eq).

(** ** The gateway environment *)

Lemma lookup_set_if_truthy k0 v0 (o : gmap string string) k :
  set_if_truthy k0 v0 o !! k =
  if bool_decide (k = k0) && truthy v0 then v0 else o !! k.
Proof.
  unfold set_if_truthy. case_bool_decide as Hk; simpl.
  - subst k0. destruct v0 as [s0|]; [|done].
    destruct (truthy (Some s0)); [|done]. by rewrite lookup_insert_eq.
  - destruct v0 as [s0|]; [|done].
    destruct (truthy (Some s0)); [|done]. by rewrite lookup_insert_ne.
Qed.

Lemma buildEnvVars_lookup env k :
  buildEnvVars env !! k =
  if truthy (gateway_var env k) then gateway_var env k else None.
Proof.
  unfold buildEnvVars, gateway_var. rewrite !lookup_set_if_truthy, lookup_empty.
  repeat (match goal with
          | |- context [bool_decide (k = ?name)] =>
              destruct (bool_decide_reflect (k = name)) as [->|?];
              [vm_compute; reflexivity|cbn [andb]]
          end).
  reflexivity.
Qed.

Lemma env_option_empty (o : gmap string string) :
  env_option o = None <-> o = ∅.
Proof.
  unfold env_option. rewrite <- map_size_empty_iff.
  case_bool_decide; split; intros; try done; lia.
Qed.

Lemma env_option_non_empty (o : gmap string string) :
  o ≠ ∅ -> env_option o = Some o.
Proof.
  intros Hne. destruct (env_option o) eqn:E.
  - unfold env_option in E. by case_bool_decide; simplify_eq.
  - by apply env_option_empty in E.
Qed.

(** What [startProcess] is called with, in every run of the supervisor. *)
Lemma ensure_start_arguments {S} (h : handler S) env s r s' t cmd envo rs :
  run h (ensureClawdbotGateway env) s = (r, s', t) ->
  OStart cmd envo rs ∈ t ->
  cmd = "/usr/local/bin/start-clawdbot.sh" /\ envo = env_option (buildEnvVars env).
Proof.
  intros H Hin. run_ensure h H.
  all: simplify_eq.
  all: repeat (apply elem_of_cons in Hin as [Hin|Hin]; [by simplify_eq|]).
  all: by apply elem_of_nil in Hin.
Qed.

(** C5. The environment handed to the gateway holds exactly the recognized
    variables that are set and non-empty, with their values; an unset or
    empty variable contributes no key.  When no variable qualifies the map
    is empty and [startProcess] receives no [env] option at all, in every
    run of the supervisor. *)
Theorem gateway_environment_only_non_empty {S} (h : handler S) env :
  (forall k v, buildEnvVars env !! k = Some v <-> gateway_var env k = Some v /\ v ≠ "") /\
  (forall k, buildEnvVars env !! k ≠ Some "") /\
  (buildEnvVars env = ∅ -> env_option (buildEnvVars env) = None) /\
  (buildEnvVars env ≠ ∅ -> env_option (buildEnvVars env) = Some (buildEnvVars env)) /\
  (forall s r s' t cmd envo rs,
      run h (ensureClawdbotGateway env) s = (r, s', t) ->
      OStart cmd envo rs ∈ t ->
      envo = env_option (buildEnvVars env) /\ envo ≠ Some ∅).
Proof.
  assert (Hlookup : forall k v,
    buildEnvVars env !! k = Some v <-> gateway_var env k = Some v /\ v ≠ "").
  { intros k v. rewrite buildEnvVars_lookup.
    destruct (gateway_var env k) as [w|]; simpl; [|split; [done|by intros [? _]]].
    case_bool_decide as Hw; simpl.
    - split; [done|]. intros [[= ->] Hne]. done.
    - split; [|by intros [? _]]. intros [= ->]. done. }
  split_and!.
  - done.
  - intros k Hk. apply Hlookup in Hk. by destruct Hk as [_ ?].
  - intros ->. by apply env_option_empty.
  - apply env_option_non_empty.
  - intros s r s' t cmd envo rs Hrun Hin.
    destruct (ensure_start_arguments h env s r s' t cmd envo rs Hrun Hin) as [_ ->].
    split; [done|]. intros Heq.
    destruct (decide (buildEnvVars env = ∅)) as [He|Hne].
    + apply env_option_empty in He. congruence.
    + rewrite (env_option_non_empty _ Hne) in Heq. congruence.
Qed.

(** ** The supervisor *)

(** The supervisor itself proxies nothing. *)
Lemma ensure_never_forwards {S} (h : handler S) env s r s' t o :
  run h (ensureClawdbotGateway env) s = (r, s', t) ->
  o ∈ t -> is_forward o = false.
Proof.
  intros H Hin. run_ensure h H.
  all: simplify_eq.
  all: repeat (apply elem_of_cons in Hin as [->|Hin]; [done|]).
  all: by apply elem_of_nil in Hin.
Qed.

Lemma ensure_returns_probed {S} (h : handler S) env s p s' t :
  run h (ensureClawdbotGateway env) s = (Returns p, s', t) ->
  OWait p CLAWDBOT_PORT "tcp" STARTUP_TIMEOUT_MS (Fulfilled tt) ∈ t.
Proof.
  intros H. run_ensure h H.
  all: simplify_eq.
  all: elem_of_trace.
Qed.

(** The proxy handler, run in terms of the supervisor's run. *)
Lemma run_proxy_all {S} (h : handler S) c s :
  run h (proxy_all c) s =
  match run h (ensureClawdbotGateway (c_env c)) s with
  | (Returns _, s1, t1) =>
      let '(r, s2, t2) :=
        run h (if bool_decide (toLowerCase <$> upgrade (c_req c) = Some "websocket")
               then
                 console_log [LStr "Proxying WebSocket connection to Clawdbot"];;
                 console_log [LStr "WebSocket URL:"; LStr (url (c_req c))];;
                 console_log [LStr "WebSocket search params:"; LStr (search (c_req c))];;
                 await (WsConnect (c_req c) CLAWDBOT_PORT)
               else
                 console_log [LStr "Proxying HTTP request:";
                              LStr (pathname (c_req c) +:+ search (c_req c))];;
                 await (ContainerFetch (c_req c) CLAWDBOT_PORT)) s1 in
      (r, s2, t1 ++ t2)
  | (Throws error, s1, t1) =>
      (Returns (JsonResponse
                  (JObject [("error", JString "Clawdbot gateway failed to start");
                            ("details", JString (errorMessage_of error));
                            ("hint", JString (hint_of (c_env c) (errorMessage_of error)))])
                  503),
       (h _ (Console LevelError [LStr "Failed to start Clawdbot:"; LThrown error]) s1).2,
       t1 ++ [OConsole LevelError [LStr "Failed to start Clawdbot:"; LThrown error]])
  end.
Proof.
  unfold proxy_all, mbind, prog_bind, mret, prog_ret.
  rewrite run_bind, run_try_catch, run_bind.
  destruct (run h (ensureClawdbotGateway (c_env c)) s) as [[[p|error] s1] t1].
  - cbn [run]. rewrite !app_nil_r. done.
  - cbn [run console_error bind]. destruct (h unit _ s1) as [[] s2]. cbn [run].
    rewrite app_nil_r. done.
Qed.

(** Cutting a trace at an event its first part cannot contain. *)
Lemma cut_after_prefix {A} (P : A -> Prop) (t0 rest t1 : list A) o t2 :
  t0 ++ rest = t1 ++ o :: t2 ->
  (forall x, x ∈ t0 -> ~ P x) -> P o ->
  exists t3, t1 = t0 ++ t3 /\ rest = t3 ++ o :: t2.
Proof.
  revert t1. induction t0 as [|x t0 IH]; intros t1 Heq Hno Ho.
  - by exists t1.
  - destruct t1 as [|y t1]; simplify_eq/=.
    + destruct (Hno o); [left|done].
    + destruct (IH t1) as (t3 & -> & ->); [done| |done|by exists t3].
      intros z Hz. apply Hno. by right.
Qed.

(** C3. A process the supervisor returns has answered a readiness probe on
    the gateway port during that very call, and the proxy handler forwards a
    request (over HTTP or as a WebSocket) only after the supervisor, called
    for this request, has returned such a process. *)
Theorem forward_only_after_successful_probe {S} (h : handler S) :
  (forall env s p s' t,
      run h (ensureClawdbotGateway env) s = (Returns p, s', t) ->
      OWait p CLAWDBOT_PORT "tcp" STARTUP_TIMEOUT_MS (Fulfilled tt) ∈ t) /\
  (forall c s r s' t t1 o t2,
      run h (proxy_all c) s = (r, s', t) ->
      t = t1 ++ o :: t2 ->
      is_forward o = true ->
      exists p s1 t0 t3,
        run h (ensureClawdbotGateway (c_env c)) s = (Returns p, s1, t0) /\
        t1 = t0 ++ t3 /\
        OWait p CLAWDBOT_PORT "tcp" STARTUP_TIMEOUT_MS (Fulfilled tt) ∈ t0).
Proof.
  split; [apply ensure_returns_probed|].
  intros c s r s' t t1 o t2 Hrun -> Hfw.
  rewrite run_proxy_all in Hrun.
  destruct (run h (ensureClawdbotGateway (c_env c)) s) as [[[p|error] s1] t0] eqn:Hens.
  - destruct (run h _ s1) as [[r2 s2] rest]. injection Hrun as _ _ Htrace.
    destruct (cut_after_prefix (fun o => is_forward o = true) t0 rest t1 o t2 Htrace)
      as (t3 & -> & _); [|done|].
    { intros x Hx. rewrite (ensure_never_forwards h _ _ _ _ _ _ Hens Hx). done. }
    exists p, s1, t0, t3. eauto using ensure_returns_probed.
  - injection Hrun as _ _ Htrace.
    destruct (cut_after_prefix (fun o => is_forward o = true) t0 _ t1 o t2 Htrace)
      as (t3 & -> & Hrest); [|done|].
    { intros x Hx. rewrite (ensure_never_forwards h _ _ _ _ _ _ Hens Hx). done. }
    destruct t3 as [|? [|? ?]]; simplify_eq/=.
Qed.

(** When the probe of the freshly started process fails, the supervisor
    rethrows that failure, whether the output could be fetched or not: the
    error built around the captured stderr is thrown inside the [try] whose
    [catch] replaces it. *)
Lemma ensure_fresh_probe_failure {S} (h : handler S) env s r s' t t1 cmd envo p e t2 :
  run h (ensureClawdbotGateway env) s = (r, s', t) ->
  t = t1 ++ OStart cmd envo (Fulfilled p) :: t2 ->
  OWait p CLAWDBOT_PORT "tcp" STARTUP_TIMEOUT_MS (Rejected e) ∈ t2 ->
  r = Throws e.
Proof.
  intros H Ht Hin. run_ensure h H.
  all: simplify_eq.
  all: split_trace t1.
  all: repeat (apply elem_of_cons in Hin as [Hin|Hin]; [by simplify_eq|]).
  all: by apply elem_of_nil in Hin.
Qed.

(** C2. When the registry shows a live gateway and the probe against it
    fails, the supervisor kills that process, starts one replacement and no
    more, and returns only the process [startProcess] gave it, after a
    successful probe of that process. *)
Theorem stuck_gateway_is_replaced {S} (h : handler S) env s r s' t ps p0 e :
  run h (ensureClawdbotGateway env) s = (r, s', t) ->
  OList (Fulfilled ps) ∈ t ->
  first_live_gateway ps = Some p0 ->
  status p0 = "running" ->
  OWait p0 CLAWDBOT_PORT "tcp" STARTUP_TIMEOUT_MS (Rejected e) ∈ t ->
  exists e0 rk rs rest,
    calls t = OList (Fulfilled ps)
              :: OWait p0 CLAWDBOT_PORT "tcp" STARTUP_TIMEOUT_MS (Rejected e0)
              :: OKill p0 rk
              :: OStart "/usr/local/bin/start-clawdbot.sh" (env_option (buildEnvVars env)) rs
              :: rest /\
    (forall o, o ∈ rest -> is_start o = false /\ is_kill o = false) /\
    (forall p, r = Returns p ->
       rs = Fulfilled p /\
       exists logs, rest = [OWait p CLAWDBOT_PORT "tcp" STARTUP_TIMEOUT_MS (Fulfilled tt);
                            OGetLogs p (Fulfilled logs)]).
Proof.
  intros H Hlist Hfound Hstatus Hwait. run_ensure h H.
  all: simplify_eq.
  all: apply elem_of_cons in Hlist as [Hlist|Hlist]; [simplify_eq|].
  all: repeat (apply elem_of_cons in Hlist as [Hlist|Hlist]; [by simplify_eq|]).
  all: try by apply elem_of_nil in Hlist.
  all: try (repeat (apply elem_of_cons in Hwait as [Hwait|Hwait]; [by simplify_eq|]);
            by apply elem_of_nil in Hwait).
  all: cbn [calls List.filter is_call].
  all: do 4 eexists; split; [reflexivity|]; split.
  all: try (intros o Hin;
            repeat (apply elem_of_cons in Hin as [->|Hin]; [done|]);
            by apply elem_of_nil in Hin).
  all: intros p' Hp'; simplify_eq; eauto.
Qed.

Ltac step_goal h :=
  first
    [ match goal with
      | |- context [h ?X ?ev ?s] =>
          let x := fresh "x" in
          let s1 := fresh "s" in
          destruct (h X ev s) as [x s1]; try destruct x;
          repeat match goal with u : unit |- _ => destruct u end
      end
    | match goal with
      | |- context [match first_live_gateway ?a with _ => _ end] =>
          destruct (first_live_gateway a)
      end
    | match goal with
      | |- context [truthy ?v] => destruct (truthy v)
      end ];
  cbn [run bind try_catch mbind mret prog_bind prog_ret await console_log
       console_error when observe with_empty_registry with_kill_succeeding
       first_live_gateway fst snd].

Ltac run_ensure_goal h :=
  unfold ensureClawdbotGateway, findExistingClawdbotProcess,
    with_empty_registry, with_kill_succeeding;
  hide_messages;
  cbn [run bind try_catch mbind mret prog_bind prog_ret await console_log
       console_error when observe with_empty_registry with_kill_succeeding
       fst snd];
  repeat step_goal h.

(** C4. A failing registry query is not an error of the supervisor: the
    lookup logs it and answers "no process", the supervisor's next sandbox
    call is [startProcess], and it ends exactly as it would had the registry
    answered with an empty list. *)
Theorem registry_failure_means_no_process {S} (h : handler S) env s e s1 :
  h _ ListProcesses s = (Rejected e, s1) ->
  (exists s2,
      run h findExistingClawdbotProcess s =
      (Returns None, s2,
       [OList (Rejected e);
        OConsole LevelLog [LStr "Could not list processes:"; LThrown e]])) /\
  (exists rs rest,
      calls (trace_of (run h (ensureClawdbotGateway env) s)) =
      OList (Rejected e)
      :: OStart "/usr/local/bin/start-clawdbot.sh" (env_option (buildEnvVars env)) rs
      :: rest) /\
  result_of (run h (ensureClawdbotGateway env) s) =
  result_of (run (with_empty_registry h) (ensureClawdbotGateway env) s).
Proof.
  intros Hlist. split_and!.
  - unfold findExistingClawdbotProcess. prog_simpl_goal. rewrite Hlist. prog_simpl_goal.
    destruct (h unit _ s1) as [[] s2]. by exists s2.
  - unfold ensureClawdbotGateway, findExistingClawdbotProcess. prog_simpl_goal.
    rewrite Hlist. prog_simpl_goal.
    do 4 (destruct (h unit _ _) as [[] ?]; prog_simpl_goal).
    destruct (h (settled Process) _ _) as [rs ?].
    destruct (run h _ _) as [[? ?] rest].
    exists rs. eexists. cbn [trace_of snd calls List.filter is_call]. reflexivity.
  - unfold ensureClawdbotGateway, findExistingClawdbotProcess.
    cbn [run bind try_catch mbind mret prog_bind prog_ret await with_empty_registry].
    rewrite Hlist.
    run_ensure_goal h.
    all: reflexivity.
Qed.

(** C6. The supervisor kills a process only after a readiness probe with
    the full startup timeout has failed against that very process; no probe
    of it had succeeded up to then, and nothing else is killed in the same
    run. *)
Theorem kill_only_after_failed_probe {S} (h : handler S) env s r s' t t1 p rk t2 :
  run h (ensureClawdbotGateway env) s = (r, s', t) ->
  t = t1 ++ OKill p rk :: t2 ->
  (exists e, OWait p CLAWDBOT_PORT "tcp" 180000 (Rejected e) ∈ t1) /\
  (forall port mode timeout, OWait p port mode timeout (Fulfilled tt) ∉ t1) /\
  (forall o, o ∈ t1 ++ t2 -> is_kill o = false).
Proof.
  intros H Ht. run_ensure h H.
  all: simplify_eq.
  all: split_trace t1.
  all: split_and!; [eexists; elem_of_trace | |].
  all: try (intros port mode timeout Hin;
            repeat (apply elem_of_cons in Hin as [Hin|Hin]; [discriminate Hin|]);
            by apply elem_of_nil in Hin).
  all: intros o Hin; cbn [List.app] in Hin;
       repeat (apply elem_of_cons in Hin as [->|Hin]; [done|]);
       by apply elem_of_nil in Hin.
Qed.

(** C9. A [kill] that raises changes nothing but the log: the failure is
    written to the console, the supervisor goes on to start a fresh process
    with the usual arguments, and it ends exactly as it does in the same
    sandbox with the kill succeeding. *)
Theorem kill_failure_is_swallowed {S} (h : handler S) env s :
  result_of (run h (ensureClawdbotGateway env) s) =
  result_of (run (with_kill_succeeding h) (ensureClawdbotGateway env) s) /\
  (forall r s' t t1 p killError t2,
      run h (ensureClawdbotGateway env) s = (r, s', t) ->
      t = t1 ++ OKill p (Rejected killError) :: t2 ->
      exists rs t3,
        t2 = OConsole LevelLog [LStr "Failed to kill process:"; LThrown killError]
             :: OConsole LevelLog [LStr "Starting new Clawdbot gateway..."]
             :: OConsole LevelLog [LStr "Starting process with command:";
                                   LStr "/usr/local/bin/start-clawdbot.sh"]
             :: OConsole LevelLog [LStr "Environment vars being passed:";
                                   LKeys (buildEnvVars env)]
             :: OStart "/usr/local/bin/start-clawdbot.sh"
                       (env_option (buildEnvVars env)) rs
             :: t3).
Proof.
  split.
  - run_ensure_goal h.
    all: reflexivity.
  - intros r s' t t1 p killError t2 H Ht. run_ensure h H.
    all: simplify_eq.
    all: split_trace t1.
    all: by do 2 eexists.
Qed.

(** ** The proxy handler's failure response *)

(** C7 (as the code has it). Whenever the supervisor fails, the proxy
    handler answers 503 with a JSON body carrying the error's message and a
    hint, and does nothing else: one console line, no further sandbox call,
    no retry, whatever the hint.  The hint is the missing-credential one
    whenever ANTHROPIC_API_KEY is unset or empty (read from the environment,
    not from the message); otherwise the out-of-memory one when the message
    contains 'heap out of memory' or 'OOM'; otherwise the generic one. *)
Theorem supervision_failure_response {S} (h : handler S) c s error s1 t1 :
  run h (ensureClawdbotGateway (c_env c)) s = (Throws error, s1, t1) ->
  (exists s2,
      run h (proxy_all c) s =
      (Returns (failure_response (c_env c) error), s2,
       t1 ++ [OConsole LevelError [LStr "Failed to start Clawdbot:"; LThrown error]])) /\
  (truthy (ANTHROPIC_API_KEY (c_env c)) = false ->
   hint_of (c_env c) (errorMessage_of error) =
   "ANTHROPIC_API_KEY is not set. Run: wrangler secret put ANTHROPIC_API_KEY") /\
  (truthy (ANTHROPIC_API_KEY (c_env c)) = true ->
   includes "heap out of memory" (errorMessage_of error)
   || includes "OOM" (errorMessage_of error) = true ->
   hint_of (c_env c) (errorMessage_of error) =
   "Gateway ran out of memory. Try again or check for memory leaks.") /\
  (truthy (ANTHROPIC_API_KEY (c_env c)) = true ->
   includes "heap out of memory" (errorMessage_of error)
   || includes "OOM" (errorMessage_of error) = false ->
   hint_of (c_env c) (errorMessage_of error) = "Check worker logs with: wrangler tail").
Proof.
  intros Hens. split_and!.
  - rewrite run_proxy_all, Hens. eauto.
  - intros Hkey. unfold hint_of. by rewrite Hkey.
  - intros Hkey Hoom. unfold hint_of. by rewrite Hkey, Hoom.
  - intros Hkey Hoom. unfold hint_of. by rewrite Hkey, Hoom.
Qed.

(** ** The debug gate *)

Lemma under_debug_not_health path :
  path_matches (PUnder "/debug") path = true -> path ≠ "/sandbox-health".
Proof. intros Hpath ->. vm_compute in Hpath. discriminate. Qed.

Section Gate.
Variables debug_version debug_processes debug_logs : Context -> prog Response.

(** A request under [/debug] reaches the gate first, and what the gate
    lets through goes on to the debug routes and the proxy. *)
Lemma app_fetch_under_debug c :
  path_matches (PUnder "/debug") (pathname (c_req c)) = true ->
  app_fetch debug_version debug_processes debug_logs c =
  debug_gate c
    (dispatch [app_get "/debug/version" debug_version;
               app_get "/debug/processes" debug_processes;
               app_get "/debug/logs" debug_logs;
               app_all PAny proxy_all] c).
Proof.
  intros Hpath. pose proof (under_debug_not_health _ Hpath) as Hne.
  unfold app_fetch, app.
  cbn [dispatch]. unfold route_matches, app_use, app_get, app_all.
  cbn [r_method r_pattern r_handler path_matches andb].
  cbn [path_matches] in Hpath.
  rewrite Hpath, (bool_decide_eq_false_2 _ Hne), andb_false_r. done.
Qed.

(** C8. With the gate off ([DEBUG_ROUTES_ENABLED] is ['false']) a request
    to any path under [/debug], whatever its method, is answered by the
    gate itself with the 404 JSON body, without a single sandbox call;
    the answer is never a 403. *)
Theorem debug_gate_off_answers_not_found {S} (h : handler S) c s :
  debugEnabled (c_env c) = false ->
  path_matches (PUnder "/debug") (pathname (c_req c)) = true ->
  app_fetch debug_version debug_processes debug_logs c = Ret debug_disabled_response /\
  run h (app_fetch debug_version debug_processes debug_logs c) s = (Returns debug_disabled_response, s, []) /\
  (forall body, result_of (run h (app_fetch debug_version debug_processes debug_logs c) s) ≠ Returns (JsonResponse body 403)).
Proof.
  intros Hoff Hpath.
  assert (Hfetch : app_fetch debug_version debug_processes debug_logs c = Ret debug_disabled_response).
  { rewrite (app_fetch_under_debug c Hpath). unfold debug_gate. by rewrite Hoff. }
  rewrite Hfetch. by split_and!.
Qed.

(** C10. The gate is open unless [DEBUG_ROUTES_ENABLED] is exactly
    ['false']: with the variable unset or holding anything else the
    middleware hands every request on, and a GET of each debug route
    reaches its handler. *)
Theorem debug_gate_open_by_default c :
  (debugEnabled (c_env c) = true <-> DEBUG_ROUTES_ENABLED (c_env c) ≠ Some "false") /\
  (DEBUG_ROUTES_ENABLED (c_env c) ≠ Some "false" ->
   (forall next, debug_gate c next = next) /\
   (method (c_req c) = "GET" ->
    (pathname (c_req c) = "/debug/version" -> app_fetch debug_version debug_processes debug_logs c = debug_version c) /\
    (pathname (c_req c) = "/debug/processes" -> app_fetch debug_version debug_processes debug_logs c = debug_processes c) /\
    (pathname (c_req c) = "/debug/logs" -> app_fetch debug_version debug_processes debug_logs c = debug_logs c))).
Proof.
  assert (Hiff : debugEnabled (c_env c) = true <->
                 DEBUG_ROUTES_ENABLED (c_env c) ≠ Some "false").
  { unfold debugEnabled. rewrite negb_true_iff. apply bool_decide_eq_false. }
  split; [done|]. intros Hon%Hiff.
  assert (Hgate : forall next, debug_gate c next = next).
  { intros next. unfold debug_gate. by rewrite Hon. }
  split; [done|]. intros Hget.
  split_and!; intros Hpath.
  all: rewrite app_fetch_under_debug by (by rewrite Hpath).
  all: rewrite Hgate.
  all: cbn [dispatch]; unfold route_matches, app_get, app_all.
  all: cbn [r_method r_pattern r_handler path_matches andb].
  all: rewrite Hget, Hpath; done.
Qed.
End Gate.

(** * The properties on concrete runs *)

Example includes_examples :
  includes "OOM" "worker killed: OOM (137)" = true /\
  includes "heap out of memory" "FATAL ERROR: JavaScript heap out of memory" = true /\
  includes "OOM" "timeout" = false /\
  includes "" "" = true.
Proof. by vm_compute. Qed.

Example first_live_gateway_examples :
  first_live_gateway
    [ {| id := "a"; command := "cat /root/.clawdbot/build-info.json"; status := "running" |};
      {| id := "b"; command := "clawdbot gateway --port 18789"; status := "completed" |};
      gw_new; gw_old ] = Some gw_new /\
  first_live_gateway
    [ {| id := "b"; command := "clawdbot gateway --port 18789"; status := "failed" |} ] = None.
Proof. by vm_compute. Qed.

(** An upgrade request is relayed as a WebSocket once the gateway is known
    to answer; the header value is compared case-insensitively. *)
Example websocket_upgrade_is_relayed :
  let request := {| method := "GET"; url := "https://worker.example/ws?token=t";
                    pathname := "/ws"; search := "?token=t";
                    upgrade := Some "WebSocket" |} in
  calls (trace_of (run (scripted sc_healthy)
                       (proxy_all {| c_env := with_key; c_req := request |}) 0%nat)) =
  [ OList (Fulfilled [gw_old]);
    OWait gw_old CLAWDBOT_PORT "tcp" STARTUP_TIMEOUT_MS (Fulfilled tt);
    OWsConnect request CLAWDBOT_PORT (Fulfilled (Upstream 200 "ok")) ].
Proof. by vm_compute. Qed.

(** C1 (where the code departs from it). A fresh gateway whose probe times
    out, with its output fetched without trouble and a non-empty stderr: the
    supervisor fails with the probe's own error.  The error built around the
    captured stderr is thrown inside the [try] block that fetches the
    output, so the [catch] meant for a failed fetch takes it, logs it as
    "Failed to get logs" and throws the probe's error in its place. *)
Theorem fresh_timeout_loses_captured_stderr :
  let outcome := run (scripted sc_fresh_timeout) (ensureClawdbotGateway no_env) 0%nat in
  OGetLogs gw_new (Fulfilled {| stdout := ""; stderr := "boom" |}) ∈ trace_of outcome /\
  result_of outcome = Throws (JsError "timeout") /\
  result_of outcome ≠ Throws (JsError "Clawdbot gateway failed to start. Stderr: boom") /\
  OConsole LevelError
    [LStr "Failed to get logs:";
     LThrown (JsError "Clawdbot gateway failed to start. Stderr: boom")]
    ∈ trace_of outcome.
Proof.
  vm_compute. split_and!; [elem_of_trace|reflexivity|discriminate|elem_of_trace].
Qed.

Lemma stuck_gateway_is_replaced_witness :
  exists e0 rk rs rest,
    calls (trace_of stuck_run) =
    OList (Fulfilled [gw_old])
    :: OWait gw_old CLAWDBOT_PORT "tcp" STARTUP_TIMEOUT_MS (Rejected e0)
    :: OKill gw_old rk
    :: OStart "/usr/local/bin/start-clawdbot.sh" (env_option (buildEnvVars no_env)) rs
    :: rest /\
    (forall o, o ∈ rest -> is_start o = false /\ is_kill o = false) /\
    (forall p, result_of stuck_run = Returns p ->
       rs = Fulfilled p /\
       exists logs, rest = [OWait p CLAWDBOT_PORT "tcp" STARTUP_TIMEOUT_MS (Fulfilled tt);
                            OGetLogs p (Fulfilled logs)]).
Proof.
  apply (stuck_gateway_is_replaced (scripted (sc_stuck (Fulfilled tt))) no_env 0%nat
           (result_of stuck_run) stuck_run.1.2 (trace_of stuck_run)
           [gw_old] gw_old timeout_error).
  - vm_compute. reflexivity.
  - vm_compute. elem_of_trace.
  - reflexivity.
  - reflexivity.
  - vm_compute. elem_of_trace.
Defined.

Lemma forward_only_after_successful_probe_witness :
  OWait gw_old CLAWDBOT_PORT "tcp" STARTUP_TIMEOUT_MS (Fulfilled tt) ∈ trace_of healthy_run /\
  exists p s1 t0 t3,
    run (scripted sc_healthy) (ensureClawdbotGateway with_key) 0%nat = (Returns p, s1, t0) /\
    take 6 (trace_of healthy_proxy_run) = t0 ++ t3 /\
    OWait p CLAWDBOT_PORT "tcp" STARTUP_TIMEOUT_MS (Fulfilled tt) ∈ t0.
Proof.
  split.
  - apply (proj1 (forward_only_after_successful_probe (scripted sc_healthy))
             no_env 0%nat gw_old healthy_run.1.2 (trace_of healthy_run)).
    vm_compute. reflexivity.
  - apply (proj2 (forward_only_after_successful_probe (scripted sc_healthy))
             {| c_env := with_key; c_req := get_request "/chat" |} 0%nat
             (result_of healthy_proxy_run) healthy_proxy_run.1.2
             (trace_of healthy_proxy_run)
             (take 6 (trace_of healthy_proxy_run))
             (OFetch (get_request "/chat") CLAWDBOT_PORT (Fulfilled (Upstream 200 "ok")))
             []).
    + vm_compute. reflexivity.
    + vm_compute. reflexivity.
    + reflexivity.
Defined.

Lemma registry_failure_means_no_process_witness :
  (exists s2,
      run (scripted sc_registry_down) findExistingClawdbotProcess 0%nat =
      (Returns None, s2,
       [OList (Rejected (JsError "sandbox unreachable"));
        OConsole LevelLog [LStr "Could not list processes:";
                           LThrown (JsError "sandbox unreachable")]])) /\
  (exists rs rest,
      calls (trace_of (run (scripted sc_registry_down) (ensureClawdbotGateway with_key) 0%nat)) =
      OList (Rejected (JsError "sandbox unreachable"))
      :: OStart "/usr/local/bin/start-clawdbot.sh" (env_option (buildEnvVars with_key)) rs
      :: rest) /\
  result_of (run (scripted sc_registry_down) (ensureClawdbotGateway with_key) 0%nat) =
  result_of (run (with_empty_registry (scripted sc_registry_down))
                 (ensureClawdbotGateway with_key) 0%nat).
Proof.
  apply (registry_failure_means_no_process (scripted sc_registry_down) with_key 0%nat
           (JsError "sandbox unreachable") 0%nat).
  reflexivity.
Defined.

Lemma gateway_environment_only_non_empty_witness :
  buildEnvVars with_key !! "ANTHROPIC_API_KEY" = Some "sk-ant-test" /\
  buildEnvVars with_key !! "OPENAI_API_KEY" ≠ Some "" /\
  env_option (buildEnvVars no_env) = None /\
  env_option (buildEnvVars with_key) = Some (buildEnvVars with_key) /\
  None = env_option (buildEnvVars no_env) /\ None ≠ Some (∅ : gmap string string).
Proof.
  split_and!.
  - apply (proj1 (gateway_environment_only_non_empty (scripted sc_healthy) with_key)).
    split; [reflexivity|discriminate].
  - apply (proj1 (proj2 (gateway_environment_only_non_empty (scripted sc_healthy) with_key))).
  - apply (proj1 (proj2 (proj2 (gateway_environment_only_non_empty (scripted sc_healthy) no_env)))).
    vm_compute. reflexivity.
  - apply (proj1 (proj2 (proj2 (proj2
             (gateway_environment_only_non_empty (scripted sc_healthy) with_key))))).
    vm_compute. discriminate.
  - apply (proj2 (proj2 (proj2 (proj2
             (gateway_environment_only_non_empty (scripted sc_fresh_timeout) no_env))))
             0%nat (Throws (JsError "timeout")) 1%nat
             (trace_of (run (scripted sc_fresh_timeout) (ensureClawdbotGateway no_env) 0%nat))
             "/usr/local/bin/start-clawdbot.sh" None (Fulfilled gw_new)).
    + vm_compute. reflexivity.
    + vm_compute. elem_of_trace.
  - discriminate.
Defined.

Lemma kill_only_after_failed_probe_witness :
  (exists e, OWait gw_old CLAWDBOT_PORT "tcp" 180000 (Rejected e)
             ∈ take 5 (trace_of stuck_run)) /\
  (forall port mode timeout,
      OWait gw_old port mode timeout (Fulfilled tt) ∉ take 5 (trace_of stuck_run)) /\
  (forall o, o ∈ take 5 (trace_of stuck_run) ++ drop 6 (trace_of stuck_run) ->
             is_kill o = false).
Proof.
  apply (kill_only_after_failed_probe (scripted (sc_stuck (Fulfilled tt))) no_env 0%nat
           (result_of stuck_run) stuck_run.1.2 (trace_of stuck_run)
           (take 5 (trace_of stuck_run)) gw_old (Fulfilled tt)
           (drop 6 (trace_of stuck_run))).
  - vm_compute. reflexivity.
  - vm_compute. reflexivity.
Defined.

Lemma kill_failure_is_swallowed_witness :
  result_of stuck_kill_fails_run = result_of stuck_run /\
  exists rs t3,
    drop 6 (trace_of stuck_kill_fails_run) =
    OConsole LevelLog [LStr "Failed to kill process:"; LThrown (JsError "no such process")]
    :: OConsole LevelLog [LStr "Starting new Clawdbot gateway..."]
    :: OConsole LevelLog [LStr "Starting process with command:";
                          LStr "/usr/local/bin/start-clawdbot.sh"]
    :: OConsole LevelLog [LStr "Environment vars being passed:";
                          LKeys (buildEnvVars no_env)]
    :: OStart "/usr/local/bin/start-clawdbot.sh" (env_option (buildEnvVars no_env)) rs
    :: t3.
Proof.
  split.
  - unfold stuck_kill_fails_run.
    rewrite (proj1 (kill_failure_is_swallowed
                      (scripted (sc_stuck (Rejected (JsError "no such process"))))
                      no_env 0%nat)).
    vm_compute. reflexivity.
  - apply (proj2 (kill_failure_is_swallowed
                    (scripted (sc_stuck (Rejected (JsError "no such process"))))
                    no_env 0%nat)
             (result_of stuck_kill_fails_run) stuck_kill_fails_run.1.2
             (trace_of stuck_kill_fails_run)
             (take 5 (trace_of stuck_kill_fails_run)) gw_old (JsError "no such process")
             (drop 6 (trace_of stuck_kill_fails_run))).
    + vm_compute. reflexivity.
    + vm_compute. reflexivity.
Defined.

(** C7 as worded does not hold: the hint is not derived from the diagnostic
    text alone.  The same failure, with the same text in [details], gets
    the out-of-memory hint when the credential is set and the
    missing-credential hint when it is not. *)
Lemma hint_not_derived_from_text_alone :
  let details := "FATAL ERROR: JavaScript heap out of memory" in
  let oom_hint := "Gateway ran out of memory. Try again or check for memory leaks." in
  let key_hint := "ANTHROPIC_API_KEY is not set. Run: wrangler secret put ANTHROPIC_API_KEY" in
  result_of (run (scripted sc_oom) (proxy_all keyed_ctx) 0%nat) =
  Returns (JsonResponse
             (JObject [("error", JString "Clawdbot gateway failed to start");
                       ("details", JString details);
                       ("hint", JString oom_hint)]) 503) /\
  result_of (run (scripted sc_oom) (proxy_all unkeyed_ctx) 0%nat) =
  Returns (JsonResponse
             (JObject [("error", JString "Clawdbot gateway failed to start");
                       ("details", JString details);
                       ("hint", JString key_hint)]) 503) /\
  ~ exists derive : string -> string,
      forall c, exists body,
        result_of (run (scripted sc_oom) (proxy_all c) 0%nat) =
        Returns (JsonResponse (JObject [("error", body);
                                        ("details", JString details);
                                        ("hint", JString (derive details))]) 503).
Proof.
  cbv zeta. split_and!.
  - vm_compute. reflexivity.
  - vm_compute. reflexivity.
  - intros [derive Hd].
    destruct (Hd keyed_ctx) as [b1 H1]. destruct (Hd unkeyed_ctx) as [b2 H2].
    vm_compute in H1, H2. congruence.
Qed.

Lemma supervision_failure_response_witness :
  (exists s2,
      run (scripted sc_oom) (proxy_all keyed_ctx) 0%nat =
      (Returns (failure_response with_key (JsError "FATAL ERROR: JavaScript heap out of memory")),
       s2,
       trace_of (run (scripted sc_oom) (ensureClawdbotGateway with_key) 0%nat)
       ++ [OConsole LevelError
             [LStr "Failed to start Clawdbot:";
              LThrown (JsError "FATAL ERROR: JavaScript heap out of memory")]])) /\
  hint_of with_key "FATAL ERROR: JavaScript heap out of memory" =
  "Gateway ran out of memory. Try again or check for memory leaks.".
Proof.
  pose proof (supervision_failure_response (scripted sc_oom) keyed_ctx 0%nat
                (JsError "FATAL ERROR: JavaScript heap out of memory") 0%nat
                (trace_of (run (scripted sc_oom) (ensureClawdbotGateway with_key) 0%nat)))
    as H.
  destruct H as (Hresp & _ & Hoom & _).
  - vm_compute. reflexivity.
  - split; [exact Hresp|]. apply Hoom; vm_compute; reflexivity.
Defined.

Lemma debug_gate_off_answers_not_found_witness :
  let c := {| c_env := with_debug (Some "false"); c_req := get_request "/debug/logs" |} in
  app_fetch (debug_stub "version") (debug_stub "processes") (debug_stub "logs") c
  = Ret debug_disabled_response /\
  run (scripted sc_healthy)
      (app_fetch (debug_stub "version") (debug_stub "processes") (debug_stub "logs") c) 0%nat
  = (Returns debug_disabled_response, 0%nat, []) /\
  (forall body,
      result_of (run (scripted sc_healthy)
                     (app_fetch (debug_stub "version") (debug_stub "processes")
                                (debug_stub "logs") c) 0%nat)
      ≠ Returns (JsonResponse body 403)).
Proof.
  cbv zeta.
  apply (debug_gate_off_answers_not_found
           (debug_stub "version") (debug_stub "processes") (debug_stub "logs")
           (scripted sc_healthy)
           {| c_env := with_debug (Some "false"); c_req := get_request "/debug/logs" |}
           0%nat).
  - reflexivity.
  - vm_compute. reflexivity.
Defined.

Lemma debug_gate_open_by_default_witness :
  app_fetch (debug_stub "version") (debug_stub "processes") (debug_stub "logs")
            {| c_env := with_debug (Some "0"); c_req := get_request "/debug/logs" |}
  = debug_stub "logs" {| c_env := with_debug (Some "0"); c_req := get_request "/debug/logs" |} /\
  app_fetch (debug_stub "version") (debug_stub "processes") (debug_stub "logs")
            {| c_env := with_debug None; c_req := get_request "/debug/version" |}
  = debug_stub "version" {| c_env := with_debug None; c_req := get_request "/debug/version" |}.
Proof.
  split.
  - apply (proj2 (debug_gate_open_by_default
                    (debug_stub "version") (debug_stub "processes") (debug_stub "logs")
                    {| c_env := with_debug (Some "0"); c_req := get_request "/debug/logs" |}));
      [discriminate|reflexivity|reflexivity].
  - apply (proj2 (debug_gate_open_by_default
                    (debug_stub "version") (debug_stub "processes") (debug_stub "logs")
                    {| c_env := with_debug None; c_req := get_request "/debug/version" |}));
      [discriminate|reflexivity|reflexivity].
Defined.

(** The values the comment on the gate has in mind leave it open, too. *)
Example debug_gate_open_for_other_values :
  debugEnabled (with_debug None) = true /\
  debugEnabled (with_debug (Some "0")) = true /\
  debugEnabled (with_debug (Some "no")) = true /\
  debugEnabled (with_debug (Some "off")) = true /\
  debugEnabled (with_debug (Some "FALSE")) = true /\
  debugEnabled (with_debug (Some "false")) = false.
Proof. by vm_compute. Qed.

(** * Further properties of the Worker *)

(** ** The supervisor's call protocol *)

(** The sandbox calls of any run, in the terms of [ensure_calls]; the
    properties below are read off it. *)
Lemma ensure_calls_shape {S} (h : handler S) env s r s' t :
  run h (ensureClawdbotGateway env) s = (r, s', t) ->
  ensure_calls env r (calls t).
Proof.
  intros H.
  unfold ensureClawdbotGateway, findExistingClawdbotProcess in H.
  prog_simpl in H.
  repeat step_run h H.
  all: injection H as <- <- <-; cbn [calls List.filter is_call].
  all: eauto using ensure_calls, fresh_calls.
Qed.

(** X1. Whatever the sandbox answers, a run of the supervisor makes its
    sandbox calls in one of four orders: the registry query and a successful
    probe of the gateway found (which is returned); or the query, a failed
    probe, a kill and a fresh start; or the query finding none (or failing)
    and a fresh start.  A fresh start is [startProcess] alone when it fails,
    else followed by the probe and one or two [getLogs]. *)
Theorem supervisor_call_protocol {S} (h : handler S) env s r s' t :
  run h (ensureClawdbotGateway env) s = (r, s', t) ->
  ensure_calls env r (calls t).
Proof.
  intros H.
  unfold ensureClawdbotGateway, findExistingClawdbotProcess in H.
  prog_simpl in H.
  repeat step_run h H.
  all: injection H as <- <- <-; cbn [calls List.filter is_call].
  all: eauto using ensure_calls, fresh_calls.
Qed.

Lemma elem_of_calls o t : o ∈ calls t <-> o ∈ t /\ is_call o = true.
Proof. unfold calls. rewrite !list_elem_of_In. apply List.filter_In. Qed.

(** All the ways a hypothesis [H : o ∈ [o1; ...; on]] can hold. *)
Ltac in_cases H :=
  repeat (apply elem_of_cons in H as [H|H]; [try discriminate H; simplify_eq|]);
  try (apply elem_of_nil in H; destruct H).

(** X2. The supervisor never retries: one registry query, at most one kill,
    at most one [startProcess], at most two probes and two [getLogs], seven
    sandbox calls at most in a run. *)
Theorem supervisor_bounded_effort {S} (h : handler S) env s r s' t :
  run h (ensureClawdbotGateway env) s = (r, s', t) ->
  length (List.filter is_list (calls t)) = 1%nat /\
  (length (List.filter is_kill (calls t)) <= 1)%nat /\
  (length (List.filter is_start (calls t)) <= 1)%nat /\
  (length (List.filter is_wait (calls t)) <= 2)%nat /\
  (length (List.filter is_getLogs (calls t)) <= 2)%nat /\
  (length (calls t) <= 7)%nat.
Proof.
  intros H%ensure_calls_shape.
  destruct H as [ps p0 Hf|ps p0 e killed r tl Hf Hfresh|ps r tl Hf Hfresh|e r tl Hfresh];
    try destruct Hfresh; cbn; lia.
Qed.

(** X3. Every readiness probe of a run of the supervisor, on a gateway found
    or on a fresh one, is made on port 18789 in TCP mode with the full
    180000 ms timeout. *)
Theorem supervisor_probes_uniformly {S} (h : handler S) env s r s' t p port mode timeout a :
  run h (ensureClawdbotGateway env) s = (r, s', t) ->
  OWait p port mode timeout a ∈ t ->
  port = 18789 /\ mode = "tcp" /\ timeout = 180000.
Proof.
  intros H%ensure_calls_shape Hin.
  assert (Hc : OWait p port mode timeout a ∈ calls t) by (by apply elem_of_calls).
  clear Hin.
  destruct H as [ps p0 Hf|ps p0 e killed r tl Hf Hfresh|ps r tl Hf Hfresh|e r tl Hfresh];
    try destruct Hfresh; in_cases Hc; done.
Qed.

(** X4. When the registry shows a live gateway and no probe of it fails, the
    supervisor returns that very process and calls nothing but the registry
    query and the probe: no start, no kill, no [getLogs]. *)
Theorem healthy_gateway_is_reused {S} (h : handler S) env s r s' t ps p0 :
  run h (ensureClawdbotGateway env) s = (r, s', t) ->
  OList (Fulfilled ps) ∈ t ->
  first_live_gateway ps = Some p0 ->
  (forall e, OWait p0 CLAWDBOT_PORT "tcp" STARTUP_TIMEOUT_MS (Rejected e) ∉ t) ->
  r = Returns p0 /\
  calls t = [OList (Fulfilled ps);
             OWait p0 CLAWDBOT_PORT "tcp" STARTUP_TIMEOUT_MS (Fulfilled tt)].
Proof.
  intros H%ensure_calls_shape Hin Hfound Hok.
  assert (Hc : OList (Fulfilled ps) ∈ calls t) by (by apply elem_of_calls).
  assert (Hok' : forall e, OWait p0 CLAWDBOT_PORT "tcp" STARTUP_TIMEOUT_MS (Rejected e)
                           ∉ calls t).
  { intros e He. apply elem_of_calls in He as [He _]. by apply (Hok e). }
  clear Hin Hok.
  destruct H as [qs q0 Hf|qs q0 e killed r tl Hf Hfresh|qs r tl Hf Hfresh|e r tl Hfresh];
    try destruct Hfresh; in_cases Hc; simplify_eq; try done.
  all: exfalso; apply (Hok' e); elem_of_trace.
Qed.

(** X5. When the registry shows no live gateway, nothing is killed: the
    supervisor goes straight to [startProcess], and a process it returns is
    the one [startProcess] gave it. *)
Theorem nothing_found_nothing_killed {S} (h : handler S) env s r s' t ps :
  run h (ensureClawdbotGateway env) s = (r, s', t) ->
  OList (Fulfilled ps) ∈ t ->
  first_live_gateway ps = None ->
  (forall o, o ∈ t -> is_kill o = false) /\
  exists rs tl,
    calls t = OList (Fulfilled ps)
              :: OStart "/usr/local/bin/start-clawdbot.sh" (env_option (buildEnvVars env)) rs
              :: tl /\
    (forall p, r = Returns p -> rs = Fulfilled p).
Proof.
  intros H%ensure_calls_shape Hin Hnone.
  assert (Hc : OList (Fulfilled ps) ∈ calls t) by (by apply elem_of_calls).
  assert (Hkill : (forall o, o ∈ calls t -> is_kill o = false) ->
                  forall o, o ∈ t -> is_kill o = false).
  { intros Hk o Ho. destruct (is_call o) eqn:Hcall.
    - apply Hk. by apply elem_of_calls.
    - by destruct o. }
  clear Hin.
  destruct H as [qs q0 Hf|qs q0 e killed r tl Hf Hfresh|qs r tl Hf Hfresh|e r tl Hfresh];
    try destruct Hfresh; in_cases Hc; simplify_eq.
  all: split; [apply Hkill; intros o Ho; in_cases Ho; done|].
  all: do 2 eexists; split; [reflexivity|]; intros q Hq; by simplify_eq.
Qed.

(** X6. A failing [startProcess] is the supervisor's failure: it throws the
    very error [startProcess] rejected with, and makes no sandbox call after
    it (no probe, no [getLogs], no second start). *)
Theorem launch_failure_is_propagated {S} (h : handler S) env s r s' t cmd envo e :
  run h (ensureClawdbotGateway env) s = (r, s', t) ->
  OStart cmd envo (Rejected e) ∈ t ->
  r = Throws e /\
  exists before, calls t = before ++ [OStart cmd envo (Rejected e)].
Proof.
  intros H%ensure_calls_shape Hin.
  assert (Hc : OStart cmd envo (Rejected e) ∈ calls t) by (by apply elem_of_calls).
  clear Hin.
  destruct H as [qs q0 Hf|qs q0 e0 killed r tl Hf Hfresh|qs r tl Hf Hfresh|e0 r tl Hfresh];
    try destruct Hfresh; in_cases Hc.
  all: split; [done|].
  - by exists [OList (Fulfilled qs);
               OWait q0 CLAWDBOT_PORT "tcp" STARTUP_TIMEOUT_MS (Rejected e0);
               OKill q0 killed].
  - by exists [OList (Fulfilled qs)].
  - by exists [OList (Rejected e0)].
Qed.

(** X7. Readiness alone does not make the supervisor succeed: when the fresh
    gateway answers the probe but fetching its output then fails, the
    supervisor fetches the output once more and throws the error of the
    first fetch. *)
Theorem ready_but_logs_unavailable {S} (h : handler S) env s r s' t before p e after :
  run h (ensureClawdbotGateway env) s = (r, s', t) ->
  calls t = before
            ++ OWait p CLAWDBOT_PORT "tcp" STARTUP_TIMEOUT_MS (Fulfilled tt)
            :: OGetLogs p (Rejected e)
            :: after ->
  r = Throws e /\ exists again, after = [OGetLogs p again].
Proof.
  intros H%ensure_calls_shape Hcut.
  destruct H as [qs q0 Hf|qs q0 e0 killed r tl Hf Hfresh|qs r tl Hf Hfresh|e0 r tl Hfresh];
    try destruct Hfresh.
  all: symmetry in Hcut; split_trace before.
  all: eauto.
Qed.

(** ** Finding the gateway in the registry *)

Lemma append_nil_l (s : string) : "" +:+ s = s.
Proof. reflexivity. Qed.

Lemma append_cons (c : Ascii.ascii) (a b : string) :
  String c a +:+ b = String c (a +:+ b).
Proof. reflexivity. Qed.

Lemma prefix_spec (a b : string) :
  String.prefix a b = true <-> exists post, b = a +:+ post.
Proof.
  revert b. induction a as [|c a IH]; intros b.
  - split; [intros _; by exists b|]. intros _. by destruct b.
  - destruct b as [|d b]; simpl; [split; [done|by intros [? ?]]|].
    destruct (Ascii.ascii_dec c d) as [->|Hne].
    + rewrite IH. split; intros [post Hp]; exists post;
        rewrite append_cons in *; congruence.
    + split; [done|]. intros [post Hp]. rewrite append_cons in Hp. congruence.
Qed.

Lemma includes_spec (needle hay : string) :
  includes needle hay = true <-> exists pre post, hay = pre +:+ needle +:+ post.
Proof.
  induction hay as [|c hay IH]; cbn [includes].
  - rewrite orb_false_r, prefix_spec. split.
    + intros [post Hp]. by exists "", post.
    + intros (pre & post & Hp). exists post.
      destruct pre; [done|discriminate Hp].
  - rewrite orb_true_iff, prefix_spec, IH. split.
    + intros [[post Hp]|(pre & post & Hp)].
      * by exists "", post.
      * exists (String c pre), post. rewrite append_cons. by rewrite Hp.
    + intros (pre & post & Hp). destruct pre as [|d pre].
      * left. by exists post.
      * right. exists pre, post. rewrite append_cons in Hp. congruence.
Qed.

(** X8. A registry entry counts as the gateway exactly when its command
    line contains [start-clawdbot.sh] or [clawdbot gateway] somewhere and
    its status is [starting] or [running]. *)
Theorem live_gateway_recognition (proc : Process) :
  is_live_gateway proc = true <->
  ((exists pre post, command proc = pre +:+ "start-clawdbot.sh" +:+ post) \/
   (exists pre post, command proc = pre +:+ "clawdbot gateway" +:+ post)) /\
  (status proc = "starting" \/ status proc = "running").
Proof.
  unfold is_live_gateway.
  rewrite andb_true_iff, !orb_true_iff, !includes_spec, !bool_decide_eq_true.
  done.
Qed.

(** X9. The lookup takes the first live gateway in the order the registry
    lists the processes: every entry before the one chosen fails the test,
    and nothing is chosen only when every entry fails it. *)
Theorem first_live_gateway_is_first_match (processes : list Process) :
  (forall proc,
      first_live_gateway processes = Some proc <->
      exists before after,
        processes = before ++ proc :: after /\
        is_live_gateway proc = true /\
        forall q, q ∈ before -> is_live_gateway q = false) /\
  (first_live_gateway processes = None <->
   forall q, q ∈ processes -> is_live_gateway q = false).
Proof.
  induction processes as [|p ps [IHsome IHnone]]; simpl.
  - split.
    + intros proc. split; [done|]. intros (before & after & Heq & _).
      by destruct before.
    + split; [|done]. intros _ q Hq. by apply elem_of_nil in Hq.
  - destruct (is_live_gateway p) eqn:Hp.
    + split.
      * intros proc. split.
        -- intros [= <-]. exists [], ps. split_and!; [done|done|].
           intros q Hq. by apply elem_of_nil in Hq.
        -- intros (before & after & Heq & Hlive & Hbefore).
           destruct before as [|b before]; simplify_eq/=; [done|].
           rewrite (Hbefore b) in Hp; [done|left].
      * split; [done|]. intros Hall. rewrite (Hall p) in Hp; [done|left].
    + split.
      * intros proc. rewrite IHsome. split.
        -- intros (before & after & -> & Hlive & Hbefore).
           exists (p :: before), after. split_and!; [done|done|].
           intros q [->|Hq]%elem_of_cons; auto.
        -- intros (before & after & Heq & Hlive & Hbefore).
           destruct before as [|b before]; simplify_eq/=; [congruence|].
           exists before, after. split_and!; [done|done|].
           intros q Hq. apply Hbefore. by right.
      * rewrite IHnone. split.
        -- intros Hall q [->|Hq]%elem_of_cons; auto.
        -- intros Hall q Hq. apply Hall. by right.
Qed.

(** X10. The lookup cannot fail and only reads: whatever the sandbox
    answers it returns, after the single call [listProcesses]; its result is
    the first live gateway of the list, or none when the call is
    rejected. *)
Theorem lookup_never_fails {S} (h : handler S) s :
  exists answer s' t,
    run h findExistingClawdbotProcess s =
    (Returns match answer with
             | Fulfilled processes => first_live_gateway processes
             | Rejected _ => None
             end, s', t) /\
    calls t = [OList answer].
Proof.
  unfold findExistingClawdbotProcess. prog_simpl_goal.
  destruct (h _ ListProcesses s) as [[ps|e] s1]; prog_simpl_goal.
  - by exists (Fulfilled ps), s1, [OList (Fulfilled ps)].
  - destruct (h unit _ s1) as [[] s2].
    by exists (Rejected e), s2,
      [OList (Rejected e); OConsole LevelLog [LStr "Could not list processes:"; LThrown e]].
Qed.

(** ** The proxy handler *)

(** X11. The gateway is contacted exactly when supervision succeeded, and
    then once, as the last thing the handler does: a WebSocket relay when
    the [Upgrade] header is [websocket] in any letter case, an HTTP fetch
    otherwise, with the original request on port 18789.  The handler ends as
    that call does; a rejection of it is thrown on, not turned into a 503.
    When supervision fails the gateway is not contacted at all. *)
Theorem gateway_contacted_once_after_supervision {S} (h : handler S) c s :
  (forall p s1 t0,
      run h (ensureClawdbotGateway (c_env c)) s = (Returns p, s1, t0) ->
      exists answer s2 chatter,
        run h (proxy_all c) s =
        (completion_of answer, s2, t0 ++ chatter ++ [forward_obs (c_req c) answer]) /\
        calls chatter = [] /\
        forall o, o ∈ t0 ++ chatter -> is_forward o = false) /\
  (forall e s1 t0,
      run h (ensureClawdbotGateway (c_env c)) s = (Throws e, s1, t0) ->
      forall o, o ∈ trace_of (run h (proxy_all c) s) -> is_forward o = false).
Proof.
  split.
  - intros p s1 t0 Hens. rewrite run_proxy_all, Hens.
    assert (Hquiet : forall chatter,
               calls chatter = [] ->
               forall o, o ∈ t0 ++ chatter -> is_forward o = false).
    { intros chatter Hch o [Ho|Ho]%elem_of_app.
      - eapply ensure_never_forwards; eauto.
      - destruct (is_call o) eqn:Hcall.
        + assert (Hin : o ∈ calls chatter) by (by apply elem_of_calls).
          rewrite Hch in Hin. by apply elem_of_nil in Hin.
        + by destruct o. }
    unfold forward_obs. case_bool_decide; prog_simpl_goal.
    + destruct (h unit _ s1) as [[] sa]. destruct (h unit _ sa) as [[] sb].
      destruct (h unit _ sb) as [[] sc]. destruct (h _ (WsConnect _ _) sc) as [answer s2].
      exists answer, s2,
        [OConsole LevelLog [LStr "Proxying WebSocket connection to Clawdbot"];
         OConsole LevelLog [LStr "WebSocket URL:"; LStr (url (c_req c))];
         OConsole LevelLog [LStr "WebSocket search params:"; LStr (search (c_req c))]].
      split_and!; [by destruct answer|done|by apply Hquiet].
    + destruct (h unit _ s1) as [[] sa]. destruct (h _ (ContainerFetch _ _) sa) as [answer s2].
      exists answer, s2,
        [OConsole LevelLog [LStr "Proxying HTTP request:";
                            LStr (pathname (c_req c) +:+ search (c_req c))]].
      split_and!; [by destruct answer|done|by apply Hquiet].
  - intros e s1 t0 Hens o. rewrite run_proxy_all, Hens. cbn [trace_of snd].
    intros [Ho|Ho]%elem_of_app.
    + eapply ensure_never_forwards; eauto.
    + apply list_elem_of_singleton in Ho as ->. done.
Qed.

(** ** Routing *)

Section Routes.
Variables debug_version debug_processes debug_logs : Context -> prog Response.

(** Where each request goes. *)
Lemma app_fetch_table c :
  app_fetch debug_version debug_processes debug_logs c =
  if bool_decide (method (c_req c) = "GET")
     && bool_decide (pathname (c_req c) = "/sandbox-health")
  then sandbox_health c
  else
    let routes :=
      if bool_decide (method (c_req c) = "GET")
         && bool_decide (pathname (c_req c) = "/debug/version")
      then debug_version c
      else if bool_decide (method (c_req c) = "GET")
              && bool_decide (pathname (c_req c) = "/debug/processes")
      then debug_processes c
      else if bool_decide (method (c_req c) = "GET")
              && bool_decide (pathname (c_req c) = "/debug/logs")
      then debug_logs c
      else proxy_all c in
    if path_matches (PUnder "/debug") (pathname (c_req c))
    then debug_gate c routes
    else routes.
Proof.
  unfold app_fetch, app. cbn [dispatch].
  unfold route_matches, app_use, app_get, app_all.
  cbn [r_method r_pattern r_handler path_matches andb]. cbv zeta.
  repeat (match goal with
          | |- context [if ?b then _ else _] => destruct b eqn:?
          end; try reflexivity).
Qed.

(** X12. The liveness path never touches the sandbox: a GET of
    [/sandbox-health] is answered at once with the static status body and
    the gateway port, whatever the environment holds; no supervision, no
    call. *)
Theorem health_check_is_static {S} (h : handler S) c s :
  method (c_req c) = "GET" ->
  pathname (c_req c) = "/sandbox-health" ->
  run h (app_fetch debug_version debug_processes debug_logs c) s =
  (Returns (JsonResponse (JObject [("status", JString "ok");
                                   ("service", JString "clawdbot-sandbox");
                                   ("gateway_port", JNumber 18789)]) 200),
   s, []).
Proof.
  intros Hm Hp. rewrite app_fetch_table, Hm, Hp. reflexivity.
Qed.


End Routes.

(** ** The [/debug/logs] handler *)

Section DebugLogsFacts.
Variable query : Request -> string -> option string.

Lemma or_default_empty (s : string) : or_default s "" = s.
Proof. unfold or_default. by case_bool_decide. Qed.

Lemma find_by_id_spec processId processes p :
  find_by_id processId processes = Some p ->
  id p = processId /\ p ∈ processes.
Proof.
  induction processes as [|q qs IH]; simpl; [done|].
  case_bool_decide.
  - intros [= <-]. split; [done|left].
  - intros [? ?]%IH. split; [done|by right].
Qed.

(** X15. The handler always answers: whatever the sandbox does, it returns
    a JSON response with status 200, 404 or 500 and never throws.  It only
    reads: at most one [listProcesses] and one [getLogs], and never a start,
    a kill, a probe or a forward. *)
Theorem debug_logs_always_answers {S} (h : handler S) c s :
  exists body code s' t,
    run h (debug_logs query c) s = (Returns (JsonResponse body code), s', t) /\
    (code = 200 \/ code = 404 \/ code = 500) /\
    (length (calls t) <= 2)%nat /\
    (forall o, o ∈ calls t -> is_list o = true \/ is_getLogs o = true).
Proof.
  unfold debug_logs, findExistingClawdbotProcess.
  destruct (truthy (query (c_req c) "id")); prog_simpl_goal.
  - destruct (h _ ListProcesses s) as [[ps|e] s1]; prog_simpl_goal.
    + destruct (find_by_id _ ps) as [p|]; prog_simpl_goal.
      * destruct (h _ (GetLogs p) s1) as [[logs|e] s2]; prog_simpl_goal.
        all: do 4 eexists; split; [reflexivity|].
        all: split_and!; [auto|cbn; lia|].
        all: intros o Ho; cbn in Ho; in_cases Ho; auto.
      * do 4 eexists; split; [reflexivity|].
        split_and!; [auto|cbn; lia|].
        intros o Ho; cbn in Ho; in_cases Ho; auto.
    + do 4 eexists; split; [reflexivity|].
      split_and!; [auto|cbn; lia|].
      intros o Ho; cbn in Ho; in_cases Ho; auto.
  - destruct (h _ ListProcesses s) as [[ps|e] s1]; prog_simpl_goal.
    + destruct (first_live_gateway ps) as [p|]; prog_simpl_goal.
      * destruct (h _ (GetLogs p) s1) as [[logs|e] s2]; prog_simpl_goal.
        all: do 4 eexists; split; [reflexivity|].
        all: split_and!; [auto|cbn; lia|].
        all: intros o Ho; cbn in Ho; in_cases Ho; auto.
      * do 4 eexists; split; [reflexivity|].
        split_and!; [auto|cbn; lia|].
        intros o Ho; cbn in Ho; in_cases Ho; auto.
    + destruct (h unit _ s1) as [[] s2]. prog_simpl_goal.
      do 4 eexists; split; [reflexivity|].
      split_and!; [auto|cbn; lia|].
      intros o Ho; cbn in Ho; in_cases Ho; auto.
Qed.

(** X16. Asked for a process by id, the handler answers from the registry:
    404 [not_found], naming the id and without fetching any output, when no
    entry has that id; otherwise the output of the first entry with that
    id, returned as it is, with the entry's id and status. *)
Theorem debug_logs_by_id {S} (h : handler S) c s processId processes s1 :
  query (c_req c) "id" = Some processId ->
  processId ≠ "" ->
  h _ ListProcesses s = (Fulfilled processes, s1) ->
  (find_by_id processId processes = None ->
   run h (debug_logs query c) s =
   (Returns (logs_response "not_found" ("Process " +:+ processId +:+ " not found") "" "" 404),
    s1, [OList (Fulfilled processes)])) /\
  (forall p logs s2,
      find_by_id processId processes = Some p ->
      h _ (GetLogs p) s1 = (Fulfilled logs, s2) ->
      id p = processId /\ p ∈ processes /\
      run h (debug_logs query c) s =
      (Returns (JsonResponse
                  (JObject [("status", JString "ok");
                            ("process_id", JString processId);
                            ("process_status", JString (status p));
                            ("stdout", JString (stdout logs));
                            ("stderr", JString (stderr logs))])
                  200),
       s2, [OList (Fulfilled processes); OGetLogs p (Fulfilled logs)])).
Proof.
  intros Hq Hne Hlist.
  assert (Htruthy : truthy (Some processId) = true).
  { simpl. by rewrite bool_decide_eq_false_2. }
  split.
  - intros Hnone. unfold debug_logs. rewrite Hq, Htruthy. prog_simpl_goal.
    rewrite Hlist. prog_simpl_goal. cbn [from_option]; unfold Datatypes.id. rewrite Hnone. reflexivity.
  - intros p logs s2 Hfound Hlogs.
    destruct (find_by_id_spec _ _ _ Hfound) as [Hid Hin].
    split_and!; [done|done|].
    unfold debug_logs. rewrite Hq, Htruthy. prog_simpl_goal.
    rewrite Hlist. prog_simpl_goal. cbn [from_option]; unfold Datatypes.id. rewrite Hfound. prog_simpl_goal.
    rewrite Hlogs. prog_simpl_goal. rewrite !or_default_empty, Hid. reflexivity.
Qed.

(** X17. A registry that cannot be queried shows differently on the two
    paths of the handler.  With an id the failure is reported: 500 with the
    error's message.  Without an id (or with an empty one) it is swallowed by
    the gateway lookup, and the answer is 200 [no_process], as if no gateway
    were running. *)
Theorem debug_logs_registry_failure {S} (h : handler S) c s e s1 :
  h _ ListProcesses s = (Rejected e, s1) ->
  (truthy (query (c_req c) "id") = true ->
   run h (debug_logs query c) s =
   (Returns (logs_response "error" ("Failed to get logs: " +:+ errorMessage_of e) "" "" 500),
    s1, [OList (Rejected e)])) /\
  (truthy (query (c_req c) "id") = false ->
   result_of (run h (debug_logs query c) s) =
   Returns (logs_response "no_process" "No Clawdbot process is currently running" "" "" 200)).
Proof.
  intros Hlist. split; intros Hq.
  - unfold debug_logs. rewrite Hq. prog_simpl_goal. rewrite Hlist. reflexivity.
  - unfold debug_logs, findExistingClawdbotProcess. rewrite Hq. prog_simpl_goal.
    rewrite Hlist. prog_simpl_goal. destruct (h unit _ s1) as [[] s2]. reflexivity.
Qed.

(** X18. When the output of the chosen process cannot be fetched, the
    handler answers 500 with the error's message, or with [Unknown error]
    when what was thrown is not an [Error]. *)
Theorem debug_logs_fetch_failure {S} (h : handler S) c s r s' t p e :
  run h (debug_logs query c) s = (r, s', t) ->
  OGetLogs p (Rejected e) ∈ t ->
  r = Returns (logs_response "error" ("Failed to get logs: " +:+ errorMessage_of e) "" "" 500).
Proof.
  intros H Hin. unfold debug_logs, findExistingClawdbotProcess in H.
  destruct (truthy (query (c_req c) "id")); prog_simpl in H.
  all: destruct (h _ ListProcesses s) as [[ps|e0] s1]; prog_simpl in H.
  all: try (destruct (find_by_id _ ps) as [q|]; prog_simpl in H).
  all: try (destruct (first_live_gateway ps) as [q|]; prog_simpl in H).
  all: try (destruct (h _ (GetLogs q) s1) as [[logs|e1] s2]; prog_simpl in H).
  all: try (destruct (h unit _ s1) as [[] s2]; prog_simpl in H).
  all: injection H as <- <- <-; in_cases Hin; reflexivity.
Qed.
End DebugLogsFacts.

(** ** String helpers of the scripts *)

Lemma length_append (a b : string) :
  String.length (a +:+ b) = (String.length a + String.length b)%nat.
Proof. induction a as [|c a IH]; [done|]. rewrite append_cons. simpl. by rewrite IH. Qed.

Lemma replace_escape_no_backslash c repl s :
  backslash ∉ chars s -> replace_escape c repl s = s.
Proof.
  induction s as [|a s IH]; [done|]. intros Hno.
  assert (Ha : a ≠ backslash).
  { intros ->. apply Hno. left. }
  assert (Hs : backslash ∉ chars s).
  { intros Hin. apply Hno. by right. }
  cbn [replace_escape]. destruct s as [|b s]; [done|].
  destruct (Ascii.eqb_spec a backslash) as [?|_]; [done|]. cbn [andb].
  by rewrite IH.
Qed.

Lemma replace_escape_length c repl s :
  (String.length repl <= 2)%nat ->
  (String.length (replace_escape c repl s) <= String.length s)%nat.
Proof.
  intros Hrepl.
  assert (Hboth : (String.length (replace_escape c repl s) <= String.length s)%nat /\
                  forall a, (String.length (replace_escape c repl (String a s))
                             <= S (String.length s))%nat).
  { induction s as [|b s [IH1 IH2]].
    - split; [done|]. intros a. simpl. lia.
    - split; [apply IH2|]. intros a. cbn [replace_escape].
      destruct (Ascii.eqb a backslash && Ascii.eqb b c).
      + rewrite length_append. simpl. lia.
      + specialize (IH2 b). simpl in *. lia. }
  apply Hboth.
Qed.

(** X19. Unescaping leaves a text without backslashes as it is, and never
    makes a text longer. *)
Theorem unescape_keeps_plain_text (str : string) :
  (backslash ∉ chars str -> unescape str = str) /\
  (String.length (unescape str) <= String.length str)%nat.
Proof.
  split.
  - intros Hno. unfold unescape.
    by rewrite !(replace_escape_no_backslash _ _ str Hno).
  - unfold unescape.
    repeat (etrans; [apply replace_escape_length; simpl; lia|]). done.
Qed.

Lemma indexOf_spec c s :
  (indexOf c s = -1 /\ c ∉ chars s) \/
  (exists pre post,
      s = pre +:+ String c post /\
      indexOf c s = Z.of_nat (String.length pre) /\
      c ∉ chars pre).
Proof.
  induction s as [|a s IH]; cbn [indexOf].
  - left. split; [done|]. intros Hin. by apply elem_of_nil in Hin.
  - destruct (Ascii.eqb_spec a c) as [->|Hne].
    + right. exists "", s. split_and!; [done|done|].
      intros Hin. by apply elem_of_nil in Hin.
    + destruct IH as [[Hi Hno]|(pre & post & -> & Hi & Hno)].
      * left. rewrite Hi. split; [done|].
        intros [?|?]%elem_of_cons; [congruence|done].
      * right. exists (String a pre), post. rewrite Hi.
        split_and!; [done| |].
        -- destruct (Z.ltb_spec (Z.of_nat (String.length pre)) 0);
             cbn [String.length]; lia.
        -- intros [?|?]%elem_of_cons; [congruence|done].
Qed.

Lemma substring_prefix (a b : string) :
  String.substring 0 (String.length a) (a +:+ b) = a.
Proof.
  induction a as [|c a IH]; [by destruct b|].
  rewrite append_cons. simpl. by rewrite IH.
Qed.

Lemma substring_suffix (a b : string) :
  String.substring (String.length a) (String.length b) (a +:+ b) = b.
Proof.
  induction a as [|c a IH].
  - rewrite append_nil_l. cbn [String.length].
    induction b as [|d b IHb]; [done|]. simpl. by rewrite IHb.
  - rewrite append_cons. simpl. apply IH.
Qed.

(** X20. [CF_AI_GATEWAY_MODEL] is split at its first slash: provider and
    model id put back together with a slash give the value again, and the
    provider holds no slash.  A value without a slash is not rejected: the
    provider is then empty and the whole value is the model id. *)
Theorem gateway_model_split_at_first_slash (raw : string) :
  let slash := Ascii.ascii_of_nat 47 in
  (slash ∈ chars raw ->
   raw = (gateway_model_split raw).1 +:+ "/" +:+ (gateway_model_split raw).2 /\
   slash ∉ chars (gateway_model_split raw).1) /\
  (slash ∉ chars raw -> gateway_model_split raw = ("", raw)).
Proof.
  cbv zeta. unfold gateway_model_split, js_substring. cbn [default from_option].
  destruct (indexOf_spec (Ascii.ascii_of_nat 47) raw)
    as [[Hi Hno]|(pre & post & -> & Hi & Hno)]; rewrite Hi.
  - split; [done|]. intros _. unfold Datatypes.id.
    replace (Z.to_nat (Z.min _ _)) with 0%nat by lia.
    replace (Z.to_nat (Z.max (Z.max 0 (Z.min 0 _)) _ - _)) with 0%nat by lia.
    replace (Z.to_nat (Z.min (Z.max 0 (Z.min (-1 + 1) _)) _)) with 0%nat by lia.
    replace (Z.to_nat (_ - _)) with (String.length raw) by lia.
    f_equal; [by destruct raw|].
    rewrite <- (append_nil_l raw) at 2. apply (substring_suffix "" raw).
  - split.
    + intros _. unfold Datatypes.id. rewrite !length_append. cbn [fst snd String.length].
      replace (Z.to_nat (Z.min (Z.max 0 (Z.min 0 _)) _)) with 0%nat by lia.
      replace (Z.to_nat (Z.max (Z.max 0 (Z.min 0 _)) _ - _)) with (String.length pre) by lia.
      rewrite substring_prefix.
      split; [|done].
      replace (Z.to_nat (Z.min _ _)) with (String.length (pre +:+ "/")) 
        by (rewrite length_append; simpl; lia).
      replace (Z.to_nat (_ - _)) with (String.length post) by lia.
      replace (pre +:+ String (Ascii.ascii_of_nat 47) post) with ((pre +:+ "/") +:+ post).
      * rewrite substring_suffix.
        clear. induction pre as [|c pre IH]; [done|]. rewrite !append_cons. by rewrite IH.
      * clear. induction pre as [|c pre IH]; [done|]. rewrite !append_cons. by rewrite IH.
    + intros Hnone. exfalso. apply Hnone. clear.
      induction pre as [|c pre IH]; [left|right; apply IH].
Qed.

Lemma substring_drop (k : nat) (s : string) :
  (k <= String.length s)%nat ->
  exists before,
    String.length before = k /\
    s = before +:+ String.substring k (String.length s - k) s.
Proof.
  revert k. induction s as [|c s IH]; intros k Hk.
  - exists "". simpl in Hk. by replace k with 0%nat by lia.
  - destruct k as [|k].
    + exists "". split; [done|]. rewrite append_nil_l.
      symmetry. apply (substring_suffix "" (String c s)).
    + destruct (IH k) as (before & Hlen & Heq); [simpl in Hk; lia|].
      exists (String c before). split; [simpl; lia|].
      rewrite append_cons. cbn [String.length String.substring Nat.sub]. by rewrite <- Heq.
Qed.

(** X21. The tail the dump scripts print is the end of the text: its last
    [n] characters, or the whole text when it is shorter than that. *)
Theorem tail_is_a_suffix (n : Z) (s : string) :
  (exists before, s = before +:+ tail_of n s) /\
  String.length (tail_of n s) = Nat.min (Z.to_nat n) (String.length s).
Proof.
  unfold tail_of, js_substring. cbn [default from_option]. unfold Datatypes.id.
  set (len := String.length s).
  set (k := (len - Nat.min (Z.to_nat n) len)%nat).
  replace (Z.to_nat (Z.min _ _)) with k by lia.
  replace (Z.to_nat (_ - _)) with (len - k)%nat by lia.
  destruct (substring_drop k s) as (before & Hlen & Heq); [lia|].
  split; [by exists before|].
  apply (f_equal String.length) in Heq. rewrite length_append in Heq.
  fold len in Heq. lia.
Qed.

(** * The further properties on concrete runs *)

Lemma supervisor_call_protocol_witness :
  ensure_calls no_env (result_of stuck_run) (calls (trace_of stuck_run)).
Proof.
  apply (supervisor_call_protocol (scripted (sc_stuck (Fulfilled tt))) no_env 0%nat
           (result_of stuck_run) stuck_run.1.2 (trace_of stuck_run)).
  vm_compute. reflexivity.
Defined.

Lemma supervisor_bounded_effort_witness :
  length (List.filter is_list (calls (trace_of stuck_run))) = 1%nat /\
  (length (List.filter is_kill (calls (trace_of stuck_run))) <= 1)%nat /\
  (length (List.filter is_start (calls (trace_of stuck_run))) <= 1)%nat /\
  (length (List.filter is_wait (calls (trace_of stuck_run))) <= 2)%nat /\
  (length (List.filter is_getLogs (calls (trace_of stuck_run))) <= 2)%nat /\
  (length (calls (trace_of stuck_run)) <= 7)%nat.
Proof.
  apply (supervisor_bounded_effort (scripted (sc_stuck (Fulfilled tt))) no_env 0%nat
           (result_of stuck_run) stuck_run.1.2 (trace_of stuck_run)).
  vm_compute. reflexivity.
Defined.

Lemma supervisor_probes_uniformly_witness :
  CLAWDBOT_PORT = 18789 /\ "tcp" = "tcp" /\ STARTUP_TIMEOUT_MS = 180000.
Proof.
  apply (supervisor_probes_uniformly (scripted (sc_stuck (Fulfilled tt))) no_env 0%nat
           (result_of stuck_run) stuck_run.1.2 (trace_of stuck_run)
           gw_new CLAWDBOT_PORT "tcp" STARTUP_TIMEOUT_MS (Fulfilled tt)).
  - vm_compute. reflexivity.
  - vm_compute. elem_of_trace.
Defined.

Lemma healthy_gateway_is_reused_witness :
  result_of healthy_run = Returns gw_old /\
  calls (trace_of healthy_run) =
  [OList (Fulfilled [gw_old]);
   OWait gw_old CLAWDBOT_PORT "tcp" STARTUP_TIMEOUT_MS (Fulfilled tt)].
Proof.
  apply (healthy_gateway_is_reused (scripted sc_healthy) no_env 0%nat
           (result_of healthy_run) healthy_run.1.2 (trace_of healthy_run)
           [gw_old] gw_old).
  - vm_compute. reflexivity.
  - vm_compute. elem_of_trace.
  - reflexivity.
  - intros e Hin. vm_compute in Hin. in_cases Hin.
Defined.

Lemma nothing_found_nothing_killed_witness :
  (forall o, o ∈ trace_of fresh_timeout_run -> is_kill o = false) /\
  exists rs tl,
    calls (trace_of fresh_timeout_run) =
    OList (Fulfilled [])
    :: OStart "/usr/local/bin/start-clawdbot.sh" (env_option (buildEnvVars no_env)) rs
    :: tl /\
    (forall p, result_of fresh_timeout_run = Returns p -> rs = Fulfilled p).
Proof.
  apply (nothing_found_nothing_killed (scripted sc_fresh_timeout) no_env 0%nat
           (result_of fresh_timeout_run) fresh_timeout_run.1.2 (trace_of fresh_timeout_run)
           []).
  - vm_compute. reflexivity.
  - vm_compute. elem_of_trace.
  - reflexivity.
Defined.

Lemma launch_failure_is_propagated_witness :
  result_of launch_fails_run = Throws (JsError "FATAL ERROR: JavaScript heap out of memory") /\
  exists before,
    calls (trace_of launch_fails_run) =
    before ++ [OStart "/usr/local/bin/start-clawdbot.sh" None
                 (Rejected (JsError "FATAL ERROR: JavaScript heap out of memory"))].
Proof.
  apply (launch_failure_is_propagated (scripted sc_oom) no_env 0%nat
           (result_of launch_fails_run) launch_fails_run.1.2 (trace_of launch_fails_run)).
  - vm_compute. reflexivity.
  - vm_compute. elem_of_trace.
Defined.

Lemma ready_but_logs_unavailable_witness :
  result_of logs_fail_once_run = Throws (JsError "log stream closed") /\
  exists again,
    [OGetLogs gw_new (Fulfilled {| stdout := "listening"; stderr := "" |})] =
    [OGetLogs gw_new again].
Proof.
  apply (ready_but_logs_unavailable (scripted sc_logs_fail_once) no_env 0%nat
           (result_of logs_fail_once_run) logs_fail_once_run.1.2
           (trace_of logs_fail_once_run)
           [OList (Fulfilled []);
            OStart "/usr/local/bin/start-clawdbot.sh" None (Fulfilled gw_new)]
           gw_new (JsError "log stream closed")).
  - vm_compute. reflexivity.
  - vm_compute. reflexivity.
Defined.

Lemma live_gateway_recognition_witness :
  ((exists pre post, command gw_old = pre +:+ "start-clawdbot.sh" +:+ post) \/
   (exists pre post, command gw_old = pre +:+ "clawdbot gateway" +:+ post)) /\
  (status gw_old = "starting" \/ status gw_old = "running").
Proof.
  apply (proj1 (live_gateway_recognition gw_old)). reflexivity.
Defined.

Lemma first_live_gateway_is_first_match_witness :
  exists before after,
    [ {| id := "p0"; command := "clawdbot gateway"; status := "failed" |}; gw_new; gw_old ]
    = before ++ gw_new :: after /\
    is_live_gateway gw_new = true /\
    forall q, q ∈ before -> is_live_gateway q = false.
Proof.
  apply (proj1 (proj1 (first_live_gateway_is_first_match
                         [ {| id := "p0"; command := "clawdbot gateway"; status := "failed" |};
                           gw_new; gw_old ]) gw_new)).
  reflexivity.
Defined.

Lemma gateway_contacted_once_after_supervision_witness :
  exists answer s2 chatter,
    healthy_proxy_run =
    (completion_of answer, s2,
     trace_of (run (scripted sc_healthy) (ensureClawdbotGateway with_key) 0%nat)
     ++ chatter ++ [forward_obs (get_request "/chat") answer]) /\
    calls chatter = [] /\
    forall o,
      o ∈ trace_of (run (scripted sc_healthy) (ensureClawdbotGateway with_key) 0%nat)
          ++ chatter ->
      is_forward o = false.
Proof.
  apply (proj1 (gateway_contacted_once_after_supervision (scripted sc_healthy)
                  {| c_env := with_key; c_req := get_request "/chat" |} 0%nat)
           gw_old 0%nat).
  vm_compute. reflexivity.
Defined.

Lemma health_check_is_static_witness :
  run (scripted sc_oom)
      (app_fetch (debug_stub "version") (debug_stub "processes") (debug_stub "logs")
                 {| c_env := no_env; c_req := request_to "GET" "/sandbox-health" |}) 0%nat =
  (Returns (JsonResponse (JObject [("status", JString "ok");
                                   ("service", JString "clawdbot-sandbox");
                                   ("gateway_port", JNumber 18789)]) 200),
   0%nat, []).
Proof.
  apply (health_check_is_static (debug_stub "version") (debug_stub "processes")
           (debug_stub "logs") (scripted sc_oom)
           {| c_env := no_env; c_req := request_to "GET" "/sandbox-health" |} 0%nat);
    reflexivity.
Defined.



Lemma debug_logs_by_id_witness :
  let c := {| c_env := no_env; c_req := request_to "GET" "/debug/logs" |} in
  run (scripted sc_healthy) (debug_logs (query_id (Some "proc-9")) c) 0%nat =
  (Returns (logs_response "not_found" "Process proc-9 not found" "" "" 404),
   0%nat, [OList (Fulfilled [gw_old])]) /\
  (id gw_old = "proc-1" /\ gw_old ∈ [gw_old] /\
   run (scripted sc_healthy) (debug_logs (query_id (Some "proc-1")) c) 0%nat =
   (Returns (JsonResponse
               (JObject [("status", JString "ok");
                         ("process_id", JString "proc-1");
                         ("process_status", JString (status gw_old));
                         ("stdout", JString "");
                         ("stderr", JString "")])
               200),
    1%nat,
    [OList (Fulfilled [gw_old]);
     OGetLogs gw_old (Fulfilled {| stdout := ""; stderr := "" |})])).
Proof.
  cbv zeta. split.
  - apply (proj1 (debug_logs_by_id (query_id (Some "proc-9")) (scripted sc_healthy)
                    {| c_env := no_env; c_req := request_to "GET" "/debug/logs" |}
                    0%nat "proc-9" [gw_old] 0%nat eq_refl ltac:(discriminate) eq_refl)).
    reflexivity.
  - apply (proj2 (debug_logs_by_id (query_id (Some "proc-1")) (scripted sc_healthy)
                    {| c_env := no_env; c_req := request_to "GET" "/debug/logs" |}
                    0%nat "proc-1" [gw_old] 0%nat eq_refl ltac:(discriminate) eq_refl)
             gw_old {| stdout := ""; stderr := "" |} 1%nat);
      reflexivity.
Defined.

Lemma debug_logs_registry_failure_witness :
  let c := {| c_env := no_env; c_req := request_to "GET" "/debug/logs" |} in
  run (scripted sc_registry_down) (debug_logs (query_id (Some "proc-1")) c) 0%nat =
  (Returns (logs_response "error" "Failed to get logs: sandbox unreachable" "" "" 500),
   0%nat, [OList (Rejected (JsError "sandbox unreachable"))]) /\
  result_of (run (scripted sc_registry_down) (debug_logs (query_id None) c) 0%nat) =
  Returns (logs_response "no_process" "No Clawdbot process is currently running" "" "" 200).
Proof.
  cbv zeta. split.
  - apply (proj1 (debug_logs_registry_failure (query_id (Some "proc-1"))
                    (scripted sc_registry_down)
                    {| c_env := no_env; c_req := request_to "GET" "/debug/logs" |}
                    0%nat (JsError "sandbox unreachable") 0%nat eq_refl)).
    reflexivity.
  - apply (proj2 (debug_logs_registry_failure (query_id None)
                    (scripted sc_registry_down)
                    {| c_env := no_env; c_req := request_to "GET" "/debug/logs" |}
                    0%nat (JsError "sandbox unreachable") 0%nat eq_refl)).
    reflexivity.
Defined.

Lemma debug_logs_fetch_failure_witness :
  result_of (run (scripted sc_logs_down)
                 (debug_logs (query_id None)
                    {| c_env := no_env; c_req := request_to "GET" "/debug/logs" |}) 0%nat) =
  Returns (logs_response "error" "Failed to get logs: Unknown error" "" "" 500).
Proof.
  apply (debug_logs_fetch_failure (query_id None) (scripted sc_logs_down)
           {| c_env := no_env; c_req := request_to "GET" "/debug/logs" |} 0%nat
           _ 1%nat
           [OList (Fulfilled [gw_old]); OGetLogs gw_old (Rejected (JsOther "stream reset"))]
           gw_old (JsOther "stream reset")).
  - vm_compute. reflexivity.
  - elem_of_trace.
Defined.

Lemma unescape_keeps_plain_text_witness :
  unescape "listening on 18789" = "listening on 18789".
Proof.
  apply (proj1 (unescape_keeps_plain_text "listening on 18789")).
  intros Hin. vm_compute in Hin. in_cases Hin.
Defined.

Lemma gateway_model_split_at_first_slash_witness :
  "workers-ai/@cf/meta/llama-3.3-70b" =
  (gateway_model_split "workers-ai/@cf/meta/llama-3.3-70b").1 +:+ "/"
  +:+ (gateway_model_split "workers-ai/@cf/meta/llama-3.3-70b").2 /\
  Ascii.ascii_of_nat 47 ∉ chars (gateway_model_split "workers-ai/@cf/meta/llama-3.3-70b").1.
Proof.
  apply (proj1 (gateway_model_split_at_first_slash "workers-ai/@cf/meta/llama-3.3-70b")).
  vm_compute. elem_of_trace.
Defined.

(** The scripts' helpers on the inputs they are made for. *)
Example unescape_examples :
  unescape "line one\nline two" = String.append "line one" (String (Ascii.ascii_of_nat 10) "line two") /\
  unescape "C:\\\\temp" = "C:\\temp" /\
  gateway_model_split "workers-ai/@cf/meta/llama-3.3-70b" = ("workers-ai", "@cf/meta/llama-3.3-70b") /\
  gateway_model_split "gpt-4o" = ("", "gpt-4o") /\
  tail_of 5 "0123456789" = "56789" /\
  tail_of 2000 "short" = "short".
Proof. by vm_compute. Qed.
